(** * Network traffic analysis (network.py): a shallow embedding

    The script reads a capture with scapy, turns the IP packets into a pandas
    data frame and derives from it the total bandwidth, the protocol
    distribution, the table of communicating address pairs, the share of each
    protocol per pair, and a port-scan warning.

    The embedding follows the script function by function.  Scapy packets are
    records holding the layers and fields the script reads; a data frame is
    the list of its rows; the pandas operations the script calls ([groupby],
    [size], [value_counts], [sort_values], [unique], [sum]) are functions on
    lists; an exception is a value of an error monad; [float64] arithmetic is
    the kernel's binary64.

    Reading the capture file, printing the tables and plotting are outside
    the embedding: they compute none of the values the properties are about.

    An integer column is an [int64] array in pandas.  Counts and sums are
    taken in [Z]: they agree with the machine values as long as they stay
    below 2^63, which every capture held in memory satisfies. *)

From Stdlib Require Import ZArith List String Ascii Bool Lia.
From Stdlib Require Import Permutation Sorted.
From Stdlib Require Import Floats.PrimFloat Numbers.Cyclic.Int63.Uint63.
From Stdlib Require Import Numbers.DecimalString.
From Stdlib Require Numbers.DecimalPos Numbers.DecimalZ.
Import ListNotations.

Local Open Scope string_scope.
Local Open Scope Z_scope.

(** ** Exceptions *)

Inductive exn : Type :=
| KeyError (key : string).

Inductive result (A : Type) : Type :=
| Ok (a : A)
| Raise (e : exn).

Arguments Ok {A} a.
Arguments Raise {A} e.

Definition bind {A B : Type} (m : result A) (k : A -> result B) : result B :=
  match m with
  | Ok a => k a
  | Raise e => Raise e
  end.

Notation "x <- m ;; k" := (bind m (fun x => k))
  (at level 61, m at next level, right associativity).

(** ** Scapy packets, as far as the script reads them *)

Module Scapy.

(** [packet[IP].src], [.dst] and [.proto] *)
Record IP : Type := mkIP {
  src : string;
  dst : string;
  proto : Z
}.

(** [packet[TCP].dport] *)
Record TCP : Type := mkTCP {
  dport : Z
}.

(** [IP in packet] is [ip <> None], [TCP in packet] is [tcp <> None],
    [len(packet)] is [len]. *)
Record Packet : Type := mkPacket {
  ip : option IP;
  tcp : option TCP;
  len : nat
}.

End Scapy.

(** ** Pandas, as far as the script uses it *)

Module Pandas.

(** Group keys and index labels: values that pandas hashes (equality) and
    sorts (order).  Strings compare by code point, integers by value, tuples
    lexicographically. *)
Class Key (K : Type) : Type := {
  eqb : K -> K -> bool;
  leb : K -> K -> bool
}.

(** The equality test of a key type decides equality. *)
Class KeyLaws (K : Type) `{Key K} : Prop := {
  eqb_eq : forall a b : K, eqb a b = true <-> a = b
}.

#[export] Instance Key_string : Key string := {
  eqb := String.eqb;
  leb := String.leb
}.

#[export] Instance Key_Z : Key Z := {
  eqb := Z.eqb;
  leb := Z.leb
}.

#[export] Instance Key_pair {A B : Type} `{Key A} `{Key B} : Key (A * B) := {
  eqb p q := eqb (fst p) (fst q) && eqb (snd p) (snd q);
  leb p q :=
    if eqb (fst p) (fst q) then leb (snd p) (snd q) else leb (fst p) (fst q)
}.

(** A data frame built by [pd.DataFrame(list_of_dicts)] is the list of its
    rows.  Built from the empty list it has no rows and no columns, so
    selecting or grouping by a column name raises [KeyError]. *)
Definition DataFrame (R : Type) : Type := list R.

(** [df[name]] *)
Definition getitem {R A : Type} (name : string) (col : R -> A)
    (df : DataFrame R) : result (list A) :=
  match df with
  | [] => Raise (KeyError name)
  | _ :: _ => Ok (map col df)
  end.

(** [df.groupby(names)]: the key of every row, in row order.  The first name
    that is not a column raises [KeyError]. *)
Definition groupby {R K : Type} (names : list string) (key : R -> K)
    (df : DataFrame R) : result (list K) :=
  match df with
  | [] => Raise (KeyError (hd "" names))
  | _ :: _ => Ok (map key df)
  end.

(** [pd.unique]: the distinct values in order of first appearance. *)
Fixpoint unique {K : Type} `{Key K} (l : list K) : list K :=
  match l with
  | [] => []
  | x :: t => x :: filter (fun y => negb (eqb x y)) (unique t)
  end.

(** Number of rows whose key is [k]. *)
Definition count {K : Type} `{Key K} (k : K) (l : list K) : nat :=
  List.length (filter (eqb k) l).

(** Insertion sort, as numpy runs it on a short array: every element moves
    left past the elements that are strictly greater, so equal elements keep
    their order. *)
Fixpoint insert {A : Type} (le : A -> A -> bool) (x : A) (l : list A)
    : list A :=
  match l with
  | [] => [x]
  | y :: t => if le y x then y :: insert le x t else x :: y :: t
  end.

Definition isort {A : Type} (le : A -> A -> bool) (l : list A) : list A :=
  fold_left (fun acc x => insert le x acc) l [].

(** [.size()] of a group-by with the default [sort=True]: one entry per
    distinct key, in ascending key order, with the number of rows of the
    group. *)
Definition size {K : Type} `{Key K} (keys : list K) : list (K * Z) :=
  map (fun k => (k, Z.of_nat (count k keys))) (isort leb (unique keys)).

(** [Series.sort_values(ascending=False)] on integer values.  Pandas
    ([nargsort]) reverses the values, sorts them ascending with numpy's
    default quicksort and reverses the result.  That sort is not stable: the
    order it leaves among equal values depends on the numpy build.  The
    model sorts by insertion, which keeps equal values in their order.  The
    theorems below that hold for every frame use only that the result is a
    rearrangement in descending order; where a table with equal counts is
    written out, it is for a sample frame. *)
Definition le_value {K : Type} (a b : K * Z) : bool := Z.leb (snd a) (snd b).

Definition sort_values_desc {K : Type} (s : list (K * Z)) : list (K * Z) :=
  rev (isort le_value (rev s)).

(** [Series.value_counts()]: the distinct values in order of first appearance
    with their counts, then [sort_values(ascending=False)]. *)
Definition value_counts {K : Type} `{Key K} (l : list K) : list (K * Z) :=
  sort_values_desc (map (fun k => (k, Z.of_nat (count k l))) (unique l)).

(** [Series.sum()] of an integer series.  The series is an [int64] array
    and its sum wraps around; the sum is taken in [Z] here, which is the
    value the code computes whenever the entries and their sum lie within
    [int64] (counts of rows and sizes of packets held in memory always do). *)
Definition sum (l : list Z) : Z := fold_right Z.add 0 l.

(** Conversion of an [int64] to [float64], as true division does. *)
Definition float_of_Z (z : Z) : float :=
  if z <? 0 then PrimFloat.opp (PrimFloat.of_uint63 (Uint63.of_Z (- z)))
  else PrimFloat.of_uint63 (Uint63.of_Z z).

(** [x / total * 100] on integers: a float. *)
Definition percent (x total : Z) : float :=
  PrimFloat.mul (PrimFloat.div (float_of_Z x) (float_of_Z total))
                (float_of_Z 100).

(** [Series.value_counts(normalize=True)]: the counts of [value_counts], in
    the same order, each divided by their sum. *)
Definition value_counts_normalized {K : Type} `{Key K} (l : list K)
    : list (K * float) :=
  let vc := value_counts l in
  let total := sum (map snd vc) in
  map (fun e => (fst e, PrimFloat.div (float_of_Z (snd e)) (float_of_Z total)))
      vc.

End Pandas.

Import Pandas.

(** ** The script *)

(** One row of the frame of [extract_packet_data]: the dict
    [{"src_ip", "dst_ip", "protocol", "size"}]. *)
Record Row : Type := mkRow {
  src_ip : string;
  dst_ip : string;
  protocol : Z;
  size : Z
}.

(** One row of the frame of [extract_packet_data_security]: the same four
    entries and ["dst_port"]. *)
Record SecurityRow : Type := mkSecurityRow {
  base : Row;
  dst_port : Z
}.

(** [extract_packet_data]: one row per packet that has an IP layer, in
    capture order; the other packets are skipped. *)
Fixpoint extract_packet_data (packets : list Scapy.Packet) : DataFrame Row :=
  match packets with
  | [] => []
  | packet :: rest =>
      match Scapy.ip packet with
      | Some layer =>
          mkRow (Scapy.src layer) (Scapy.dst layer) (Scapy.proto layer)
                (Z.of_nat (Scapy.len packet))
          :: extract_packet_data rest
      | None => extract_packet_data rest
      end
  end.

(** The decimal digits of an integer, as an f-string prints them. *)
Definition str (n : Z) : string := NilZero.string_of_int (Z.to_int n).

(** [protocol_name]: [{1: 'ICMP', 6: 'TCP', 17: 'UDP'}.get(number,
    f"Unknown({number})")]. *)
Definition protocol_name (number : Z) : string :=
  match number with
  | 1 => "ICMP"
  | 6 => "TCP"
  | 17 => "UDP"
  | _ => "Unknown(" ++ str number ++ ")"
  end.

(** Rows of the three tables that [analyze_packet_data] returns. *)
Record ProtocolCountsRow : Type := mkProtocolCountsRow {
  pc_Protocol : string;
  pc_Count : Z;
  pc_Percentage : float
}.

Record IpCommunicationRow : Type := mkIpCommunicationRow {
  ic_src_ip : string;
  ic_dst_ip : string;
  ic_count : Z;
  ic_percentage : float
}.

Record IpProtocolRow : Type := mkIpProtocolRow {
  Source_IP : string;
  Destination_IP : string;
  Protocol : string;
  Count : Z;
  Percentage : float
}.

(** The tuple that [analyze_packet_data] returns. *)
Record Analysis : Type := mkAnalysis {
  total_bandwidth : Z;
  protocol_counts_df : list ProtocolCountsRow;
  ip_communication_table : list IpCommunicationRow;
  protocol_frequency : list (string * Z);
  ip_communication_protocols : list IpProtocolRow
}.

(** [series.index = series.index.map(f)] *)
Definition map_index {K L V : Type} (f : K -> L) (s : list (K * V))
    : list (L * V) :=
  map (fun e => (f (fst e), snd e)) s.

(** [series * 100] on a float series. *)
Definition times_100 {K : Type} (s : list (K * float)) : list (K * float) :=
  map (fun e => (fst e, PrimFloat.mul (snd e) (float_of_Z 100))) s.

(** [pd.concat([a, b], axis=1).reset_index()] for two series over the same
    index in the same order: one row per label with both values. *)
Definition concat_columns {K A B R : Type} (row : K -> A -> B -> R)
    (a : list (K * A)) (b : list (K * B)) : list R :=
  map (fun e => row (fst (fst e)) (snd (fst e)) (snd (snd e))) (combine a b).

(** [groupby(["Source IP", "Destination IP"])["Count"].transform(lambda x:
    x / x.sum() * 100)] on the rows [(source, destination, protocol, count)]:
    every count against the sum of the counts of its group. *)
Definition same_pair (p : string * string) (e : (string * string * Z) * Z)
    : bool :=
  eqb p (fst (fst e)).

Definition group_sum (rows : list ((string * string * Z) * Z))
    (p : string * string) : Z :=
  Pandas.sum (map snd (filter (same_pair p) rows)).

Definition transform_percentage (rows : list ((string * string * Z) * Z))
    : list IpProtocolRow :=
  map (fun e =>
         let '((s, d, p), c) := e in
         mkIpProtocolRow s d (protocol_name p) c
                         (percent c (group_sum rows (s, d))))
      rows.

Definition analyze_packet_data (df : DataFrame Row) : result Analysis :=
  sizes <- getitem "size" size df ;;
  let total_bandwidth := Pandas.sum sizes in
  protocols <- getitem "protocol" protocol df ;;
  let protocol_counts :=
    map_index protocol_name (times_100 (value_counts_normalized protocols)) in
  pairs <- groupby ["src_ip"; "dst_ip"] (fun r => (src_ip r, dst_ip r)) df ;;
  let ip_communication := sort_values_desc (Pandas.size pairs) in
  let ip_communication_percentage :=
    map (fun e => (fst e, percent (snd e) (Pandas.sum (map snd ip_communication))))
        ip_communication in
  let ip_communication_table :=
    concat_columns (fun k c p => mkIpCommunicationRow (fst k) (snd k) c p)
                   ip_communication ip_communication_percentage in
  protocols' <- getitem "protocol" protocol df ;;
  let protocol_frequency := map_index protocol_name (value_counts protocols') in
  let protocol_counts_df :=
    concat_columns mkProtocolCountsRow protocol_frequency protocol_counts in
  triples <- groupby ["src_ip"; "dst_ip"; "protocol"]
                     (fun r => (src_ip r, dst_ip r, protocol r)) df ;;
  let ip_communication_protocols := transform_percentage (Pandas.size triples) in
  Ok (mkAnalysis total_bandwidth protocol_counts_df ip_communication_table
                 protocol_frequency ip_communication_protocols).

(** [extract_packet_data_security]: as [extract_packet_data], with the TCP
    destination port, or 0 for a packet without a TCP layer. *)
Fixpoint extract_packet_data_security (packets : list Scapy.Packet)
    : DataFrame SecurityRow :=
  match packets with
  | [] => []
  | packet :: rest =>
      match Scapy.ip packet with
      | Some layer =>
          let dst_port :=
            match Scapy.tcp packet with
            | Some segment => Scapy.dport segment
            | None => 0
            end in
          mkSecurityRow
            (mkRow (Scapy.src layer) (Scapy.dst layer) (Scapy.proto layer)
                   (Z.of_nat (Scapy.len packet)))
            dst_port
          :: extract_packet_data_security rest
      | None => extract_packet_data_security rest
      end
  end.

(** [detect_port_scanning] returns nothing; what it computes is the array
    [ip_addresses] and what it does is log a warning when that array is not
    empty.  The model returns both. *)
Record PortScan : Type := mkPortScan {
  ip_addresses : list string;
  warnings : list string
}.

Definition detect_port_scanning (df : DataFrame SecurityRow)
    (port_scan_threshold : Z) : result PortScan :=
  keys <- groupby ["src_ip"; "dst_port"]
                  (fun r => (src_ip (base r), dst_port r)) df ;;
  let port_scan_df := Pandas.size keys in
  let unique_ports_per_ip :=
    Pandas.size (map (fun e => fst (fst e)) port_scan_df) in
  let potential_port_scanners :=
    filter (fun e => port_scan_threshold <=? snd e) unique_ports_per_ip in
  let ip_addresses := unique (map fst potential_port_scanners) in
  let warnings :=
    if (0 <? Z.of_nat (List.length ip_addresses))
    then ["Potential port scanning detected from IP addresses: "
          ++ String.concat ", " ip_addresses]
    else [] in
  Ok (mkPortScan ip_addresses warnings).

(** ** What the properties speak of *)

(** Group keys of a row, as the [groupby] calls select them. *)
Definition pair_key (r : Row) : string * string := (src_ip r, dst_ip r).

Definition triple_key (r : Row) : string * string * Z :=
  (src_ip r, dst_ip r, protocol r).

Definition port_key (r : SecurityRow) : string * Z :=
  (src_ip (base r), dst_port r).

(** The packet carries an IP layer. *)
Definition has_ip (packet : Scapy.Packet) : bool :=
  match Scapy.ip packet with Some _ => true | None => false end.

(** Sizes of the frames that carry an IP layer. *)
Definition ip_frame_sizes (packets : list Scapy.Packet) : list Z :=
  map (fun packet => Z.of_nat (Scapy.len packet)) (filter has_ip packets).

(** The (source, destination) label and the count of a row of the pair
    table. *)
Definition ic_entry (row : IpCommunicationRow) : (string * string) * Z :=
  ((ic_src_ip row, ic_dst_ip row), ic_count row).

(** Total of the [Count] column over the rows of the per-protocol table that
    carry the pair [(s, d)]. *)
Definition has_pair (s d : string) (row : IpProtocolRow) : bool :=
  eqb (s, d) (Source_IP row, Destination_IP row).

Definition pair_protocol_total (r : Analysis) (s d : string) : Z :=
  Pandas.sum (map Count (filter (has_pair s d) (ip_communication_protocols r))).

(** The pair table is sorted by count, descending. *)
Definition count_descending (table : list IpCommunicationRow) : Prop :=
  StronglySorted (fun a b => ic_count b <= ic_count a) table.

(** Position of the first row of the frame with the pair [p]. *)
Fixpoint first_seen (p : string * string) (df : DataFrame Row) : nat :=
  match df with
  | [] => 0
  | r :: t => if eqb p (pair_key r) then 0 else S (first_seen p t)
  end.

(** Entries with equal counts stand in the order in which their pairs were
    first seen in the frame. *)
Definition ties_in_first_seen_order (df : DataFrame Row)
    (table : list IpCommunicationRow) : Prop :=
  forall (i j : nat) (a b : IpCommunicationRow),
    (i < j)%nat ->
    nth_error table i = Some a -> nth_error table j = Some b ->
    ic_count a = ic_count b ->
    (first_seen (fst (ic_entry a)) df < first_seen (fst (ic_entry b)) df)%nat.

(** Python's [sum] of a list of floats: left to right, from 0. *)
Definition float_sum (l : list float) : float :=
  fold_left PrimFloat.add l 0%float.

(** [abs(x - 100) <= 1e-6 * 100] in binary64. *)
Definition close_to_100 (x : float) : bool :=
  PrimFloat.leb (PrimFloat.abs (PrimFloat.sub x 100%float))
                (PrimFloat.mul 0x1.0c6f7a0b5ed8dp-20%float 100%float).

(** The percentages of the protocol distribution, of the pair table and of
    the per-protocol rows of the pair [(s, d)] add up to 100 within the
    tolerance. *)
Definition protocol_percentages_close (r : Analysis) : Prop :=
  close_to_100 (float_sum (map pc_Percentage (protocol_counts_df r))) = true.

Definition pair_percentages_close (r : Analysis) : Prop :=
  close_to_100 (float_sum (map ic_percentage (ip_communication_table r))) = true.

Definition pair_protocol_percentages_close (r : Analysis) (s d : string)
    : Prop :=
  close_to_100
    (float_sum (map Percentage
                    (filter (has_pair s d) (ip_communication_protocols r))))
  = true.

(** The value fits a signed 64-bit integer. *)
Definition int64 (z : Z) : Prop := - 2 ^ 63 <= z < 2 ^ 63.

(** The rows of source [s], and the values of their [dst_port] column. *)
Definition from_source (s : string) (r : SecurityRow) : bool :=
  eqb s (src_ip (base r)).

Definition ports_of (df : DataFrame SecurityRow) (s : string) : list Z :=
  map dst_port (filter (from_source s) df).

(** Number of distinct [dst_port] values on the rows of source [s]; the 0 that
    stands for a packet without TCP layer is one of these values. *)
Definition unique_ports (df : DataFrame SecurityRow) (s : string) : Z :=
  Z.of_nat (List.length (unique (ports_of df s))).

(** Number of distinct [dst_port] values other than 0 on the rows of source
    [s]. *)
Definition unique_nonzero_ports (df : DataFrame SecurityRow) (s : string) : Z :=
  Z.of_nat (List.length
              (unique (filter (fun p => negb (p =? 0)) (ports_of df s)))).

(** Source [s] is flagged: the heuristic returns and [s] is in
    [ip_addresses]. *)
Definition flagged (df : DataFrame SecurityRow) (threshold : Z) (s : string)
    : Prop :=
  exists r, detect_port_scanning df threshold = Ok r /\ In s (ip_addresses r).

(** ** Sample captures and frames *)

(** Two packets from 10.0.0.1: a TCP segment to port 80 and an ICMP echo,
    which has no TCP layer. *)
Definition tcp_and_icmp : list Scapy.Packet :=
  [ Scapy.mkPacket (Some (Scapy.mkIP "10.0.0.1" "10.0.0.2" 6))
                   (Some (Scapy.mkTCP 80)) 60;
    Scapy.mkPacket (Some (Scapy.mkIP "10.0.0.1" "10.0.0.2" 1)) None 98 ].

(** Two sources: X reaches ports 22 and 80, Z reaches port 80 twice. *)
Definition two_sources : DataFrame SecurityRow :=
  [ mkSecurityRow (mkRow "X" "Y" 6 60) 22;
    mkSecurityRow (mkRow "Z" "Y" 6 60) 80;
    mkSecurityRow (mkRow "X" "Y" 6 60) 80;
    mkSecurityRow (mkRow "Z" "Y" 6 60) 80 ].

(** Two TCP segments to ports 22 and 80 and a UDP datagram, all from
    10.0.0.1.  The script reads the port of TCP layers only. *)
Definition tcp_and_udp : list Scapy.Packet :=
  [ Scapy.mkPacket (Some (Scapy.mkIP "10.0.0.1" "10.0.0.2" 6))
                   (Some (Scapy.mkTCP 22)) 60;
    Scapy.mkPacket (Some (Scapy.mkIP "10.0.0.1" "10.0.0.2" 6))
                   (Some (Scapy.mkTCP 80)) 60;
    Scapy.mkPacket (Some (Scapy.mkIP "10.0.0.1" "10.0.0.2" 17)) None 70 ].

(** An ARP frame: no IP layer. *)
Definition arp_only : list Scapy.Packet :=
  [ Scapy.mkPacket None None 42 ].

(** Three packets between three hosts, one per pair: B -> A first, then
    C -> A, then A -> B.  The order of first appearance of the pairs is
    neither their ascending nor their descending order. *)
Definition three_pairs : DataFrame Row :=
  [ mkRow "10.0.0.2" "10.0.0.1" 6 60; mkRow "10.0.0.3" "10.0.0.1" 6 60;
    mkRow "10.0.0.1" "10.0.0.2" 6 60 ].

(** Scenario 1 of the specification: two TCP packets A -> B of 100 and 200
    bytes and one UDP packet A -> C of 50 bytes. *)
Definition scenario1 : DataFrame Row :=
  [ mkRow "A" "B" 6 100; mkRow "A" "B" 6 200; mkRow "A" "C" 17 50 ].

(** Three packets A -> B, two of them TCP and one UDP, and one UDP packet
    A -> C. *)
Definition mixed_protocols : DataFrame Row :=
  [ mkRow "A" "B" 6 100; mkRow "A" "B" 17 50; mkRow "A" "B" 6 200;
    mkRow "A" "C" 17 50 ].

(** Scenario 2 of the specification: X sends TCP segments to 150 distinct
    ports of Y, and Z to 50. *)
Definition scan_rows (s : string) (ports : nat) : DataFrame SecurityRow :=
  map (fun p => mkSecurityRow (mkRow s "Y" 6 60) (Z.of_nat p)) (seq 1 ports).

Definition scenario2 : DataFrame SecurityRow :=
  List.app (scan_rows "X" 150) (scan_rows "Z" 50).

(** A frame whose only row has size -5. *)
Definition negative_size : DataFrame Row :=
  [ mkRow "10.0.0.1" "10.0.0.2" 6 (-5) ].

(** The aggregator's result on a sample frame, evaluated. *)
Definition no_analysis : Analysis := mkAnalysis 0 [] [] [] [].

Definition analysis_of (df : DataFrame Row) : Analysis :=
  match analyze_packet_data df with
  | Ok r => r
  | Raise _ => no_analysis
  end.

Definition scenario1_analysis : Analysis :=
  Eval vm_compute in analysis_of scenario1.

Definition mixed_protocols_analysis : Analysis :=
  Eval vm_compute in analysis_of mixed_protocols.

(** ** Order of the keys *)

(** The order that [groupby] sorts the keys by is a total order. *)
Class KeyOrder (K : Type) `{Key K} : Prop := {
  leb_total : forall a b : K, leb a b = true \/ leb b a = true;
  leb_trans : forall a b c : K, leb a b = true -> leb b c = true -> leb a c = true;
  leb_antisym : forall a b : K, leb a b = true -> leb b a = true -> a = b
}.

(** ** Vocabulary of the further properties *)

(** All rows of source [s] carry the port [p]. *)
Definition only_port (df : DataFrame SecurityRow) (s : string) (p : Z) : Prop :=
  forall r, In r df -> src_ip (base r) = s -> dst_port r = p.

(** The label and the count of a row of the protocol distribution. *)
Definition pc_entry (row : ProtocolCountsRow) : string * Z :=
  (pc_Protocol row, pc_Count row).

(** The (source, destination) pair and the three labels of a row of the
    per-protocol table. *)
Definition icp_pair (row : IpProtocolRow) : string * string :=
  (Source_IP row, Destination_IP row).

Definition icp_label (row : IpProtocolRow) : string * string * string :=
  (Source_IP row, Destination_IP row, Protocol row).

(** Scenario 1 with its packets in reverse order. *)
Definition scenario1_reversed_analysis : Analysis :=
  Eval vm_compute in analysis_of (rev scenario1).

(** ** Reading, printing and [main]

    What the script does around the two analyses, as far as it is computed by
    the script itself: the records it logs, in order, and how a run ends.
    The text of a table ([tabulate]) and of a float with two decimals
    ([:.2f]) is made by libraries; the model takes these renderers as
    parameters.  Plotting is not modelled: [main] below stops where
    [plot_all_graphs] is called, after everything has been logged. *)

Inductive level : Type := ERROR | WARNING | INFO.

Definition record : Type := level * string.

(** How a run ends: it returns, raises, or leaves through [sys.exit]. *)
Inductive outcome (A : Type) : Type :=
| Returned (a : A)
| Raised (e : exn)
| Exited (status : Z).

Arguments Returned {A} a.
Arguments Raised {A} e.
Arguments Exited {A} status.

Record run (A : Type) : Type := mkRun {
  records : list record;
  ending : outcome A
}.

Arguments mkRun {A} records ending.
Arguments records {A} r.
Arguments ending {A} r.

Definition run_bind {A B : Type} (m : run A) (k : A -> run B) : run B :=
  match ending m with
  | Returned a => mkRun (List.app (records m) (records (k a))) (ending (k a))
  | Raised e => mkRun (records m) (Raised e)
  | Exited status => mkRun (records m) (Exited status)
  end.

Notation "x <~ m ;; k" := (run_bind m (fun x => k))
  (at level 61, m at next level, right associativity).

(** A computation that logs nothing. *)
Definition silent {A : Type} (m : result A) : run A :=
  match m with
  | Ok a => mkRun [] (Returned a)
  | Raise e => mkRun [] (Raised e)
  end.

(** [logger.error], [logger.warning], [logger.info] *)
Definition log (l : level) (message : string) : run unit :=
  mkRun [(l, message)] (Returned tt).

(** What [rdpcap] does with the file: it returns the packets or raises one
    of the two exceptions that [read_pcap] handles.  Any other exception of
    [rdpcap] passes through [read_pcap] and [main] uncaught; that case is
    not among the outcomes here. *)
Inductive rdpcap_result : Type :=
| Packets (packets : list Scapy.Packet)
| FileNotFoundError
| Scapy_Exception (e : string).

Definition read_pcap (pcap_file : string) (rdpcap : rdpcap_result)
    : run (list Scapy.Packet) :=
  match rdpcap with
  | Packets packets => mkRun [] (Returned packets)
  | FileNotFoundError =>
      _ <~ log ERROR ("PCAP file not found: " ++ pcap_file) ;;
      mkRun [] (Exited 1)
  | Scapy_Exception e =>
      _ <~ log ERROR ("Error reading PCAP file: " ++ e) ;;
      mkRun [] (Exited 1)
  end.

(** The renderers of [print_results]. *)
Record Rendering : Type := mkRendering {
  format_2f : float -> string;
  tabulate_protocol_counts : list ProtocolCountsRow -> string;
  tabulate_ip_communication : list IpCommunicationRow -> string;
  tabulate_ip_protocols : list IpProtocolRow -> string
}.

Definition newline : string := String (ascii_of_nat 10) "".

(** The unit and the value of the first line of [print_results]. *)
Definition bandwidth_display (total_bandwidth : Z) : string * float :=
  if total_bandwidth <? 10 ^ 9
  then ("Mbps", PrimFloat.div (float_of_Z total_bandwidth) (float_of_Z (10 ^ 6)))
  else ("Gbps", PrimFloat.div (float_of_Z total_bandwidth) (float_of_Z (10 ^ 9))).

Definition print_results (rendering : Rendering) (a : Analysis) : run unit :=
  let '(bandwidth_unit, total_bandwidth) := bandwidth_display (total_bandwidth a) in
  _ <~ log INFO ("Total bandwidth used: " ++ format_2f rendering total_bandwidth
                 ++ " " ++ bandwidth_unit) ;;
  _ <~ log INFO (newline ++ "Protocol Distribution:" ++ newline) ;;
  _ <~ log INFO (tabulate_protocol_counts rendering (protocol_counts_df a)) ;;
  _ <~ log INFO (newline ++ "Top IP Address Communications:" ++ newline) ;;
  _ <~ log INFO (tabulate_ip_communication rendering (ip_communication_table a)) ;;
  _ <~ log INFO (newline ++ "Share of each protocol between IPs:" ++ newline) ;;
  log INFO (tabulate_ip_protocols rendering (ip_communication_protocols a)).

(** [detect_port_scanning] as a step of [main]: its warnings are logged. *)
Definition run_detect_port_scanning (df : DataFrame SecurityRow)
    (port_scan_threshold : Z) : run unit :=
  match detect_port_scanning df port_scan_threshold with
  | Ok scan => mkRun (map (pair WARNING) (warnings scan)) (Returned tt)
  | Raise e => mkRun [] (Raised e)
  end.

(** [main], up to the call of [plot_all_graphs]. *)
Definition main (rendering : Rendering) (pcap_file : string)
    (rdpcap : rdpcap_result) (port_scan_threshold : Z) : run unit :=
  packets <~ read_pcap pcap_file rdpcap ;;
  let df := extract_packet_data packets in
  a <~ silent (analyze_packet_data df) ;;
  _ <~ print_results rendering a ;;
  let df := extract_packet_data_security packets in
  run_detect_port_scanning df port_scan_threshold.

(** A rendering for the examples: the renderers only count rows. *)
Definition row_count {A : Type} (rows : list A) : string :=
  str (Z.of_nat (List.length rows)) ++ " rows".

Definition sample_rendering : Rendering :=
  mkRendering (fun _ => "x.xx") row_count row_count row_count.

(** ** Further samples *)

(** The same combinations of source and port as [two_sources], in another
    order, towards other hosts, some of them repeated. *)
Definition two_sources_shuffled : DataFrame SecurityRow :=
  [ mkSecurityRow (mkRow "Z" "W" 6 40) 80;
    mkSecurityRow (mkRow "X" "Y" 6 60) 80;
    mkSecurityRow (mkRow "X" "V" 6 60) 22;
    mkSecurityRow (mkRow "X" "Y" 6 1500) 22;
    mkSecurityRow (mkRow "X" "W" 6 60) 80 ].

(** Two ICMP echo requests, from two hosts. *)
Definition pings : list Scapy.Packet :=
  [ Scapy.mkPacket (Some (Scapy.mkIP "10.0.0.1" "10.0.0.2" 1)) None 98;
    Scapy.mkPacket (Some (Scapy.mkIP "10.0.0.3" "10.0.0.2" 1)) None 98 ].

(** The heuristic's result on a sample frame, evaluated. *)
Definition scan_of (df : DataFrame SecurityRow) (threshold : Z) : PortScan :=
  match detect_port_scanning df threshold with
  | Ok r => r
  | Raise _ => mkPortScan [] []
  end.

Definition two_sources_scan0 : PortScan :=
  Eval vm_compute in scan_of two_sources 0.

Definition two_sources_scan1 : PortScan :=
  Eval vm_compute in scan_of two_sources 1.

(** * Facts about lists and sorting *)

Section ListFacts.
Context {A : Type}.

Lemma Permutation_filter (f : A -> bool) (l l' : list A) :
  Permutation l l' -> Permutation (filter f l) (filter f l').
Proof.
  induction 1 as [| x l l' _ IH | x y l | l l' l'' _ IH1 _ IH2]; simpl.
  - constructor.
  - destruct (f x); auto.
  - destruct (f x), (f y); auto using perm_swap.
  - now transitivity (filter f l').
Qed.

Lemma filter_comm (f g : A -> bool) (l : list A) :
  filter f (filter g l) = filter g (filter f l).
Proof.
  induction l as [| x t IH]; simpl; [reflexivity |].
  destruct (f x) eqn:Ef, (g x) eqn:Eg; simpl;
    rewrite ?Ef, ?Eg, IH; reflexivity.
Qed.

Lemma filter_all (f : A -> bool) (l : list A) :
  (forall x, In x l -> f x = true) -> filter f l = l.
Proof.
  intros Hall. apply forallb_filter_id, forallb_forall, Hall.
Qed.

Lemma combine_map_r {B : Type} (f : A -> B) (l : list A) :
  combine l (map f l) = map (fun x => (x, f x)) l.
Proof. induction l as [| x t IH]; simpl; congruence. Qed.

Lemma combine_map_map {B C : Type} (f : A -> B) (g : A -> C) (l : list A) :
  combine (map f l) (map g l) = map (fun x => (f x, g x)) l.
Proof. induction l as [| x t IH]; simpl; congruence. Qed.

Lemma insert_perm (le : A -> A -> bool) (x : A) (l : list A) :
  Permutation (insert le x l) (x :: l).
Proof.
  induction l as [| y t IH]; simpl; [reflexivity |].
  destruct (le y x); [| reflexivity].
  rewrite IH. apply perm_swap.
Qed.

Lemma isort_from_perm (le : A -> A -> bool) (l acc : list A) :
  Permutation (fold_left (fun acc x => insert le x acc) l acc) (acc ++ l).
Proof.
  revert acc; induction l as [| x t IH]; intros acc; simpl.
  - now rewrite app_nil_r.
  - rewrite IH, insert_perm. apply Permutation_middle.
Qed.

Lemma isort_perm (le : A -> A -> bool) (l : list A) :
  Permutation (isort le l) l.
Proof. apply (isort_from_perm le l []). Qed.

Lemma StronglySorted_snoc (R : A -> A -> Prop) (l : list A) (x : A) :
  StronglySorted R l -> Forall (fun y => R y x) l -> StronglySorted R (l ++ [x]).
Proof.
  induction 1 as [| y t Hs IH Hall]; intros Hx; simpl.
  - repeat constructor.
  - inversion Hx as [| ? ? Hyx Ht]; subst.
    constructor; [now apply IH |].
    apply Forall_app; split; [exact Hall | now constructor].
Qed.

Lemma StronglySorted_rev (R : A -> A -> Prop) (l : list A) :
  StronglySorted R l -> StronglySorted (fun a b => R b a) (rev l).
Proof.
  induction 1 as [| y t Hs IH Hall]; simpl; [constructor |].
  apply StronglySorted_snoc; [exact IH |].
  apply Forall_forall; intros z Hz. apply in_rev in Hz.
  rewrite Forall_forall in Hall; now apply Hall.
Qed.

Lemma StronglySorted_impl (R S : A -> A -> Prop) (l : list A) :
  (forall a b, R a b -> S a b) -> StronglySorted R l -> StronglySorted S l.
Proof.
  intros HRS; induction 1 as [| y t Hs IH Hall]; constructor; [exact IH |].
  eapply Forall_impl; [| exact Hall]. intros z; apply HRS.
Qed.

Lemma StronglySorted_map {B : Type} (R : B -> B -> Prop) (f : A -> B)
    (l : list A) :
  StronglySorted R (map f l) -> StronglySorted (fun a b => R (f a) (f b)) l.
Proof.
  induction l as [| x t IH]; simpl; intros Hs; [constructor |].
  inversion Hs as [| ? ? Ht Hall]; subst.
  constructor; [now apply IH |].
  rewrite Forall_map in Hall. exact Hall.
Qed.

End ListFacts.

Section SortedFacts.
Context {A : Type} (le : A -> A -> bool).
Hypothesis le_total : forall a b, le a b = true \/ le b a = true.
Hypothesis le_trans : forall a b c,
  le a b = true -> le b c = true -> le a c = true.

Lemma insert_sorted (x : A) (l : list A) :
  StronglySorted (fun a b => le a b = true) l ->
  StronglySorted (fun a b => le a b = true) (insert le x l).
Proof.
  induction 1 as [| y t Hs IH Hall]; simpl.
  - repeat constructor.
  - destruct (le y x) eqn:E.
    + constructor; [exact IH |].
      apply Forall_forall; intros z Hz.
      apply (Permutation_in _ (insert_perm le x t)) in Hz.
      destruct Hz as [<- | Hz]; [exact E |].
      rewrite Forall_forall in Hall; now apply Hall.
    + assert (Hxy : le x y = true) by (destruct (le_total x y); congruence).
      constructor; [now constructor |].
      constructor; [exact Hxy |].
      rewrite Forall_forall in *; intros z Hz.
      apply (le_trans x y z Hxy), Hall, Hz.
Qed.

Lemma isort_from_sorted (l acc : list A) :
  StronglySorted (fun a b => le a b = true) acc ->
  StronglySorted (fun a b => le a b = true)
                 (fold_left (fun acc x => insert le x acc) l acc).
Proof.
  revert acc; induction l as [| x t IH]; intros acc Hacc; simpl.
  - exact Hacc.
  - apply IH, insert_sorted, Hacc.
Qed.

Lemma isort_sorted (l : list A) :
  StronglySorted (fun a b => le a b = true) (isort le l).
Proof. apply isort_from_sorted; constructor. Qed.

End SortedFacts.

(** [sort_values(ascending=False)] rearranges the series and leaves the
    values in descending order. *)
Lemma sort_values_desc_perm {K : Type} (s : list (K * Z)) :
  Permutation (sort_values_desc s) s.
Proof.
  unfold sort_values_desc.
  now rewrite <- Permutation_rev, isort_perm, <- Permutation_rev.
Qed.

Lemma sort_values_desc_sorted {K : Type} (s : list (K * Z)) :
  StronglySorted (fun a b => snd b <= snd a) (sort_values_desc s).
Proof.
  unfold sort_values_desc.
  assert (Htotal : forall a b : K * Z, le_value a b = true \/ le_value b a = true)
    by (intros a b; unfold le_value; rewrite !Z.leb_le; lia).
  assert (Htrans : forall a b c : K * Z,
             le_value a b = true -> le_value b c = true -> le_value a c = true)
    by (intros a b c; unfold le_value; rewrite !Z.leb_le; lia).
  pose proof (isort_sorted (@le_value K) Htotal Htrans (rev s)) as Hs.
  apply StronglySorted_rev in Hs.
  eapply StronglySorted_impl; [| exact Hs].
  intros a b Hab; unfold le_value in Hab; now apply Z.leb_le.
Qed.

Lemma sum_cons (z : Z) (l : list Z) : Pandas.sum (z :: l) = z + Pandas.sum l.
Proof. reflexivity. Qed.

Lemma sum_perm (l l' : list Z) :
  Permutation l l' -> Pandas.sum l = Pandas.sum l'.
Proof.
  induction 1 as [| x l l' _ IH | x y l | l l' l'' _ IH1 _ IH2].
  - reflexivity.
  - rewrite !sum_cons. lia.
  - rewrite !sum_cons. lia.
  - congruence.
Qed.

(** * Facts about keys, [unique] and [size] *)

#[export] Instance KeyLaws_string : KeyLaws string.
Proof. constructor. exact String.eqb_eq. Qed.

#[export] Instance KeyLaws_Z : KeyLaws Z.
Proof. constructor. exact Z.eqb_eq. Qed.

#[export] Instance KeyLaws_pair {A B : Type} `{KeyLaws A} `{KeyLaws B} :
  KeyLaws (A * B).
Proof.
  constructor. intros [a b] [c d]; cbn.
  rewrite andb_true_iff, !eqb_eq. split.
  - intros [-> ->]; reflexivity.
  - intros E; inversion E; auto.
Qed.

Section KeyFacts.
Context {K : Type} `{KeyLaws K}.

Lemma eqb_spec (a b : K) : reflect (a = b) (eqb a b).
Proof. apply iff_reflect. symmetry. apply eqb_eq. Qed.

Lemma eqb_neq (a b : K) : eqb a b = false <-> a <> b.
Proof. destruct (eqb_spec a b); split; congruence. Qed.

Lemma eqb_refl (a : K) : eqb a a = true.
Proof. now apply eqb_eq. Qed.

(** [unique] keeps exactly the values of the list, each once. *)
Lemma In_unique (x : K) (l : list K) : In x (unique l) <-> In x l.
Proof.
  induction l as [| y t IH]; simpl; [tauto |].
  rewrite filter_In, IH, negb_true_iff, eqb_neq.
  destruct (eqb_spec y x) as [-> | Hyx]; tauto.
Qed.

Lemma NoDup_unique (l : list K) : NoDup (unique l).
Proof.
  induction l as [| y t IH]; simpl; constructor.
  - rewrite filter_In, eqb_refl; simpl. intros [_ Hf]; discriminate.
  - now apply NoDup_filter.
Qed.

Lemma filter_unique (f : K -> bool) (l : list K) :
  filter f (unique l) = unique (filter f l).
Proof.
  induction l as [| y t IH]; simpl; [reflexivity |].
  destruct (f y) eqn:Ef; simpl.
  - now rewrite filter_comm, IH.
  - rewrite filter_comm, IH. apply filter_all.
    intros x Hx. rewrite In_unique in Hx. apply filter_In in Hx.
    apply negb_true_iff, eqb_neq. intros ->. destruct Hx; congruence.
Qed.

Lemma count_cons (k x : K) (t : list K) :
  count k (x :: t) = ((if eqb k x then 1 else 0) + count k t)%nat.
Proof. unfold count; simpl. now destruct (eqb k x). Qed.

Lemma count_perm (k : K) (l l' : list K) :
  Permutation l l' -> count k l = count k l'.
Proof.
  intros Hp; unfold count. now apply Permutation_length, Permutation_filter.
Qed.

Lemma count_pos (k : K) (l : list K) : In k l <-> (0 < count k l)%nat.
Proof.
  induction l as [| y t IH]; [cbn; split; [tauto | lia] |].
  rewrite count_cons; simpl.
  destruct (eqb_spec k y) as [-> | Hky].
  - split; [lia | auto].
  - rewrite <- IH. split; [intros [Hy | Ht]; [congruence | exact Ht] | auto].
Qed.

(** On a list without repetition, [count] is 0 or 1. *)
Lemma count_NoDup (k : K) (l : list K) :
  NoDup l -> count k l = if existsb (eqb k) l then 1%nat else 0%nat.
Proof.
  induction 1 as [| y t Hy Ht IH]; [reflexivity |].
  rewrite count_cons; simpl.
  destruct (eqb_spec k y) as [-> | Hky]; simpl; [| exact IH].
  rewrite IH. destruct (existsb (eqb y) t) eqn:E; [| reflexivity].
  apply existsb_exists in E; destruct E as [z [Hz Ez]].
  apply eqb_eq in Ez; subst z. contradiction.
Qed.

(** The entries of [size]: one per key present, with its row count. *)
Lemma size_keys_perm (keys : list K) :
  Permutation (map fst (Pandas.size keys)) (unique keys).
Proof.
  unfold Pandas.size. rewrite map_map; simpl. rewrite map_id.
  apply isort_perm.
Qed.

Lemma In_size (k : K) (n : Z) (keys : list K) :
  In (k, n) (Pandas.size keys) <-> In k keys /\ n = Z.of_nat (count k keys).
Proof.
  unfold Pandas.size. rewrite in_map_iff. split.
  - intros [k' [E Hk]]. inversion E; subst.
    apply (Permutation_in _ (isort_perm leb (unique keys))) in Hk.
    rewrite In_unique in Hk. split; [exact Hk | reflexivity].
  - intros [Hk ->]. exists k; split; [reflexivity |].
    apply (Permutation_in _ (Permutation_sym (isort_perm leb (unique keys)))).
    now apply In_unique.
Qed.

(** Summing the row counts of the distinct keys [ks] counts the rows whose
    key is among [ks]. *)
Lemma sum_count_NoDup (ks l : list K) :
  NoDup ks ->
  Pandas.sum (map (fun k => Z.of_nat (count k l)) ks)
  = Z.of_nat (List.length (filter (fun x => existsb (eqb x) ks) l)).
Proof.
  intros Hnd; induction l as [| x t IH].
  - clear Hnd. induction ks as [| k ks' IHk]; [reflexivity |].
    cbn [map]. rewrite sum_cons, IHk. reflexivity.
  - assert (Hstep : Pandas.sum (map (fun k => Z.of_nat (count k (x :: t))) ks)
                    = Z.of_nat (count x ks)
                      + Pandas.sum (map (fun k => Z.of_nat (count k t)) ks)).
    { clear IH Hnd. induction ks as [| k ks' IHk]; [reflexivity |].
      cbn [map]. rewrite !sum_cons, IHk, !count_cons.
      destruct (eqb_spec k x) as [-> | Hkx].
      - rewrite eqb_refl. lia.
      - replace (eqb x k) with false
          by (symmetry; apply eqb_neq; congruence).
        lia. }
    rewrite Hstep, IH, (count_NoDup x ks Hnd). cbn [filter].
    destruct (existsb (eqb x) ks); cbn [List.length]; lia.
Qed.

(** The row counts of the groups selected by [f] add up to the number of rows
    whose key satisfies [f]. *)
Lemma sum_size_filter (f : K -> bool) (keys : list K) :
  Pandas.sum (map snd (filter (fun e => f (fst e)) (Pandas.size keys)))
  = Z.of_nat (List.length (filter f keys)).
Proof.
  unfold Pandas.size.
  rewrite (filter_map_swap (fun e : K * Z => f (fst e))); simpl.
  rewrite map_map; simpl.
  rewrite sum_count_NoDup.
  - f_equal; f_equal. apply filter_ext_in. intros x Hx.
    destruct (f x) eqn:Ef.
    + apply existsb_exists. exists x; split; [| apply eqb_refl].
      apply filter_In; split; [| exact Ef].
      apply (Permutation_in _ (Permutation_sym (isort_perm leb (unique keys)))).
      now apply In_unique.
    + destruct (existsb _ _) eqn:E; [| reflexivity].
      apply existsb_exists in E; destruct E as [z [Hz Ez]].
      apply eqb_eq in Ez; subst z. apply filter_In in Hz. destruct Hz; congruence.
  - apply NoDup_filter.
    eapply Permutation_NoDup;
      [symmetry; apply isort_perm | apply NoDup_unique].
Qed.

Lemma sum_size (keys : list K) :
  Pandas.sum (map snd (Pandas.size keys)) = Z.of_nat (List.length keys).
Proof.
  rewrite <- (filter_true (Pandas.size keys)) at 1.
  rewrite (sum_size_filter (fun _ => true)). now rewrite filter_true.
Qed.

(** The counts of [value_counts] add up to the number of values. *)
Lemma sum_value_counts (l : list K) :
  Pandas.sum (map snd (value_counts l)) = Z.of_nat (List.length l).
Proof.
  unfold value_counts.
  rewrite (sum_perm _ _ (Permutation_map snd (sort_values_desc_perm _))).
  rewrite map_map; simpl. rewrite sum_count_NoDup by apply NoDup_unique.
  f_equal; f_equal. apply filter_all. intros x Hx.
  apply existsb_exists. exists x; split; [now apply In_unique | apply eqb_refl].
Qed.

End KeyFacts.

Lemma unique_map_inj {A B : Type} `{KeyLaws A} `{KeyLaws B} (f : A -> B)
    (l : list A) :
  (forall a b, eqb (f a) (f b) = eqb a b) ->
  unique (map f l) = map f (unique l).
Proof.
  intros Hf; induction l as [| x t IH]; simpl; [reflexivity |].
  rewrite IH, filter_map_swap. f_equal. f_equal.
  apply filter_ext. intros y. now rewrite Hf.
Qed.

(** * The traffic aggregator *)

(** On a frame with at least one row no column is missing: the aggregator
    returns, and these are the total and the two grouped tables. *)
Lemma analyze_packet_data_returns (df : DataFrame Row) :
  df <> [] ->
  exists r,
    analyze_packet_data df = Ok r
    /\ total_bandwidth r = Pandas.sum (map size df)
    /\ map ic_entry (ip_communication_table r)
       = sort_values_desc (Pandas.size (map pair_key df))
    /\ ip_communication_protocols r
       = transform_percentage (Pandas.size (map triple_key df)).
Proof.
  destruct df as [| r0 t]; [congruence | intros _].
  eexists; split; [reflexivity |].
  cbn [total_bandwidth ip_communication_table ip_communication_protocols].
  split; [reflexivity |]. split; [| reflexivity].
  unfold concat_columns. rewrite combine_map_r, !map_map.
  etransitivity; [| apply map_id].
  apply map_ext. intros [[s d] c]. reflexivity.
Qed.

(** On the frame without rows the first column access raises. *)
Lemma analyze_packet_data_empty :
  analyze_packet_data [] = Raise (KeyError "size").
Proof. reflexivity. Qed.

Lemma analyze_packet_data_Ok (df : DataFrame Row) (r : Analysis) :
  analyze_packet_data df = Ok r -> df <> [].
Proof. intros E ->. rewrite analyze_packet_data_empty in E. discriminate. Qed.

(** The rows that [extract_packet_data] builds: the IP packets, in order. *)
Lemma extract_packet_data_size (packets : list Scapy.Packet) :
  map size (extract_packet_data packets) = ip_frame_sizes packets.
Proof.
  unfold ip_frame_sizes.
  induction packets as [| p t IH]; simpl; [reflexivity |].
  unfold has_ip. destruct (Scapy.ip p); simpl; now rewrite IH.
Qed.

Lemma extract_packet_data_nil (packets : list Scapy.Packet) :
  extract_packet_data packets = [] <-> filter has_ip packets = [].
Proof.
  induction packets as [| p t IH]; simpl; [tauto |].
  unfold has_ip. destruct (Scapy.ip p); simpl; [split; discriminate | exact IH].
Qed.

(** [len(packet)] is never negative. *)
Lemma extract_packet_data_size_nonneg (packets : list Scapy.Packet) :
  Forall (fun row => 0 <= size row) (extract_packet_data packets).
Proof.
  induction packets as [| p t IH]; simpl; [constructor |].
  destruct (Scapy.ip p); [constructor; [simpl; lia | exact IH] | exact IH].
Qed.

Lemma transform_percentage_counts (s d : string)
    (rows : list ((string * string * Z) * Z)) :
  map Count (filter (has_pair s d) (transform_percentage rows))
  = map snd (filter (same_pair (s, d)) rows).
Proof.
  unfold transform_percentage. generalize (group_sum rows) as g; intros g.
  induction rows as [| [[[s' d'] p] c] t IH]; [reflexivity |].
  cbn [map filter]. unfold has_pair at 1, same_pair at 1.
  cbn [Source_IP Destination_IP fst snd].
  destruct (eqb (s, d) (s', d')); cbn [map]; now rewrite IH.
Qed.

(** Rows with a given pair, counted through either grouping. *)
Lemma pair_rows_by_triple (p : string * string) (df : DataFrame Row) :
  List.length (filter (fun k => eqb p (fst k)) (map triple_key df))
  = count p (map pair_key df).
Proof.
  unfold count. rewrite !filter_map_swap, !length_map. reflexivity.
Qed.

Lemma group_sum_size (p : string * string) (df : DataFrame Row) :
  group_sum (Pandas.size (map triple_key df)) p
  = Z.of_nat (count p (map pair_key df)).
Proof.
  unfold group_sum, same_pair.
  rewrite (sum_size_filter (fun k : string * string * Z => eqb p (fst k))).
  now rewrite pair_rows_by_triple.
Qed.

(** ** The three tables, entry by entry

    Every percentage is the binary64 value of [count / total * 100], where
    the total is the number of rows of the frame for the protocol
    distribution and the pair table, and the number of rows of the pair for
    the per-protocol table. *)
Lemma protocol_counts_df_rows (df : DataFrame Row) (r : Analysis) :
  analyze_packet_data df = Ok r ->
  protocol_counts_df r
  = map (fun e => mkProtocolCountsRow (protocol_name (fst e)) (snd e)
                    (percent (snd e) (Z.of_nat (List.length df))))
        (value_counts (map protocol df)).
Proof.
  destruct df as [| r0 t]; [discriminate |].
  intros E; inversion E; subst r; clear E. cbn [protocol_counts_df].
  unfold concat_columns, map_index, times_100, value_counts_normalized.
  cbv zeta. rewrite !map_map, combine_map_map, map_map.
  rewrite sum_value_counts. apply map_ext. intros [k c].
  cbn [fst snd List.length]. rewrite length_map. reflexivity.
Qed.

Lemma ip_communication_table_rows (df : DataFrame Row) (r : Analysis) :
  analyze_packet_data df = Ok r ->
  ip_communication_table r
  = map (fun e => mkIpCommunicationRow (fst (fst e)) (snd (fst e)) (snd e)
                    (percent (snd e) (Z.of_nat (List.length df))))
        (sort_values_desc (Pandas.size (map pair_key df))).
Proof.
  destruct df as [| r0 t]; [discriminate |].
  intros E; inversion E; subst r; clear E. cbn [ip_communication_table].
  unfold concat_columns. rewrite combine_map_r, map_map.
  change (map (fun r => (src_ip r, dst_ip r)) (r0 :: t))
    with (map pair_key (r0 :: t)).
  rewrite (sum_perm _ _ (Permutation_map snd (sort_values_desc_perm _))).
  rewrite sum_size. apply map_ext. intros [[s d] c].
  cbn [fst snd List.length]. rewrite length_map. reflexivity.
Qed.

Lemma ip_communication_protocols_rows (df : DataFrame Row) (r : Analysis) :
  analyze_packet_data df = Ok r ->
  ip_communication_protocols r
  = map (fun e =>
           mkIpProtocolRow (fst (fst (fst e))) (snd (fst (fst e)))
             (protocol_name (snd (fst e))) (snd e)
             (percent (snd e)
                (Z.of_nat (count (fst (fst e)) (map pair_key df)))))
        (Pandas.size (map triple_key df)).
Proof.
  intros Hr. pose proof (analyze_packet_data_Ok df r Hr) as Hdf.
  destruct (analyze_packet_data_returns df Hdf) as [r' [Hr' [_ [_ Hrows]]]].
  rewrite Hr in Hr'. inversion Hr'; subst r'. rewrite Hrows.
  unfold transform_percentage. apply map_ext.
  intros [[[s d] p] c]. cbn [fst snd]. now rewrite group_sum_size.
Qed.

(** X6: The integer side of the percentages: the counts of the protocol
    distribution and of the pair table add up to the number of rows. *)
Lemma protocol_counts_total (df : DataFrame Row) (r : Analysis) :
  analyze_packet_data df = Ok r ->
  Pandas.sum (map pc_Count (protocol_counts_df r)) = Z.of_nat (List.length df).
Proof.
  intros Hr. rewrite (protocol_counts_df_rows df r Hr), map_map. cbn [pc_Count].
  change (fun x : Z * Z => snd x) with (@snd Z Z).
  now rewrite sum_value_counts, length_map.
Qed.

(** X7: The counts of the pair table add up to the number of rows of the frame. *)
Lemma ip_communication_total (df : DataFrame Row) (r : Analysis) :
  analyze_packet_data df = Ok r ->
  Pandas.sum (map ic_count (ip_communication_table r))
  = Z.of_nat (List.length df).
Proof.
  intros Hr. rewrite (ip_communication_table_rows df r Hr), map_map.
  cbn [ic_count].
  change (fun x : string * string * Z => snd x) with (@snd (string * string) Z).
  rewrite (sum_perm _ _ (Permutation_map snd (sort_values_desc_perm _))).
  now rewrite sum_size, length_map.
Qed.

(** * The port-scan heuristic *)

(** Grouping by [(src_ip, dst_port)] and then by [src_ip] counts, for each
    source, its distinct [dst_port] values. *)
Lemma size_of_size_counts_ports (df : DataFrame SecurityRow) (s : string) :
  Z.of_nat (count s (map (fun e => fst (fst e)) (Pandas.size (map port_key df))))
  = unique_ports df s.
Proof.
  unfold unique_ports, ports_of. f_equal.
  rewrite <- (map_map fst fst).
  rewrite (count_perm s _ _ (Permutation_map fst (size_keys_perm (map port_key df)))).
  unfold count. rewrite filter_map_swap, length_map.
  rewrite (filter_unique (fun k : string * Z => eqb s (fst k))).
  rewrite filter_map_swap.
  change (fun a : SecurityRow => eqb s (fst (port_key a))) with (from_source s).
  rewrite (map_ext_in port_key (fun r => (s, dst_port r))).
  - rewrite <- (map_map dst_port (pair s)).
    rewrite (unique_map_inj (pair s)), length_map; [reflexivity |].
    intros a b. cbn. now rewrite String.eqb_refl.
  - intros r Hr. apply filter_In in Hr. destruct Hr as [_ Hr].
    apply eqb_eq in Hr. unfold port_key. now rewrite <- Hr.
Qed.

(** On a frame with at least one row the heuristic returns; it flags the
    sources present whose distinct [dst_port] values number at least the
    threshold, and warns exactly when it flags some source. *)
Lemma detect_port_scanning_returns (df : DataFrame SecurityRow) (threshold : Z) :
  df <> [] ->
  exists r,
    detect_port_scanning df threshold = Ok r
    /\ (forall s, In s (ip_addresses r) <->
                  0 < unique_ports df s /\ threshold <= unique_ports df s)
    /\ (warnings r = [] <-> ip_addresses r = []).
Proof.
  destruct df as [| r0 t]; [congruence | intros _].
  set (df := r0 :: t).
  eexists; split; [reflexivity |]. cbn [ip_addresses warnings]. split.
  - intros s. fold df. change (map (fun r => (src_ip (base r), dst_port r)) df)
      with (map port_key df).
    rewrite In_unique, in_map_iff. split.
    + intros [[s' n] [Es Hin]]. cbn in Es; subst s'.
      apply filter_In in Hin. destruct Hin as [Hin Hn]. cbn [snd] in Hn.
      apply Z.leb_le in Hn. apply In_size in Hin. destruct Hin as [Hs ->].
      rewrite size_of_size_counts_ports in Hn.
      apply (proj1 (count_pos _ _)) in Hs.
      rewrite <- size_of_size_counts_ports. split; [lia |].
      now rewrite size_of_size_counts_ports.
    + intros [Hpos Hn]. exists (s, unique_ports df s); split; [reflexivity |].
      apply filter_In. cbn [snd]. split; [| now apply Z.leb_le].
      apply In_size. split.
      * apply count_pos. rewrite <- size_of_size_counts_ports in Hpos. lia.
      * now rewrite size_of_size_counts_ports.
  - destruct (unique _) as [| a l]; cbn [List.length].
    + split; reflexivity.
    + replace (0 <? Z.of_nat (S (List.length l))) with true
        by (symmetry; apply Z.ltb_lt; lia).
      split; discriminate.
Qed.

Lemma detect_port_scanning_empty (threshold : Z) :
  detect_port_scanning [] threshold = Raise (KeyError "src_ip").
Proof. reflexivity. Qed.

Lemma extract_packet_data_security_nil (packets : list Scapy.Packet) :
  extract_packet_data_security packets = [] <-> filter has_ip packets = [].
Proof.
  induction packets as [| p t IH]; simpl; [tauto |].
  unfold has_ip. destruct (Scapy.ip p); simpl; [split; discriminate | exact IH].
Qed.

(** A source has a port value exactly when it has a row. *)
Lemma unique_ports_pos (df : DataFrame SecurityRow) (s : string) :
  0 < unique_ports df s <-> In s (map (fun r => src_ip (base r)) df).
Proof.
  unfold unique_ports, ports_of. rewrite in_map_iff. split.
  - intros Hpos.
    destruct (filter (from_source s) df) as [| r t] eqn:E; [simpl in Hpos; lia |].
    assert (Hr : In r (filter (from_source s) df)) by (rewrite E; now left).
    apply filter_In in Hr. destruct Hr as [Hr Hs]. apply eqb_eq in Hs.
    exists r; split; [now symmetry | exact Hr].
  - intros [r [Hs Hr]].
    assert (Hin : In (dst_port r) (unique (map dst_port (filter (from_source s) df)))).
    { apply In_unique, in_map, filter_In. split; [exact Hr |].
      apply eqb_eq. now symmetry. }
    destruct (unique _); [contradiction | cbn [List.length]; lia].
Qed.

(** * Properties of the port-scan heuristic *)

(** C1, as the specification states it, fails: at threshold 2 the source of
    [tcp_and_icmp] is flagged although it contacted one destination port only;
    the 0 recorded for the ICMP packet is counted as a second port. *)
Lemma port_scan_counts_sentinel :
  flagged (extract_packet_data_security tcp_and_icmp) 2 "10.0.0.1"
  /\ unique_nonzero_ports (extract_packet_data_security tcp_and_icmp) "10.0.0.1"
     = 1.
Proof.
  split; [| reflexivity].
  eexists; split; [reflexivity |]. simpl. now left.
Qed.

(** C1, amended: on every frame with at least one row and for every positive
    threshold, [detect_port_scanning] returns and flags exactly the sources
    whose number of distinct [dst_port] values, over all destinations and
    with the 0 of packets without TCP layer counted as a value, is at least
    the threshold. *)
Theorem port_scan_flags_unique_ports (df : DataFrame SecurityRow) (threshold : Z) :
  df <> [] -> 0 < threshold ->
  exists r,
    detect_port_scanning df threshold = Ok r
    /\ forall s, In s (ip_addresses r) <-> threshold <= unique_ports df s.
Proof.
  intros Hdf Hpos.
  destruct (detect_port_scanning_returns df threshold Hdf) as [r [Hr [Hflag _]]].
  exists r; split; [exact Hr |].
  intros s. rewrite Hflag. split; [tauto | lia].
Qed.

Lemma port_scan_flags_unique_ports_witness :
  exists r,
    detect_port_scanning (extract_packet_data_security tcp_and_icmp) 2 = Ok r
    /\ forall s, In s (ip_addresses r) <->
                 2 <= unique_ports (extract_packet_data_security tcp_and_icmp) s.
Proof.
  apply (port_scan_flags_unique_ports
           (extract_packet_data_security tcp_and_icmp) 2).
  - simpl. discriminate.
  - lia.
Defined.

(** The count that leaves the value 0 out is at most the count that the
    heuristic takes, so a source that reaches the threshold with its ports
    other than 0 is flagged. *)
Lemma unique_nonzero_ports_le (df : DataFrame SecurityRow) (s : string) :
  unique_nonzero_ports df s <= unique_ports df s.
Proof.
  unfold unique_nonzero_ports, unique_ports.
  rewrite <- (filter_unique (fun p => negb (p =? 0))).
  apply inj_le, filter_length_le.
Qed.

Lemma flagged_from_nonzero_ports (df : DataFrame SecurityRow) (threshold : Z)
    (s : string) :
  0 < threshold -> threshold <= unique_nonzero_ports df s ->
  flagged df threshold s.
Proof.
  intros Hpos Hn. pose proof (unique_nonzero_ports_le df s) as Hle.
  assert (Hdf : df <> []).
  { intros ->. cbv [unique_nonzero_ports ports_of] in Hn. simpl in Hn. lia. }
  destruct (detect_port_scanning_returns df threshold Hdf) as [r [Hr [Hflag _]]].
  exists r; split; [exact Hr |]. apply Hflag. lia.
Qed.

(** C7, as the specification states it, fails: the source of [tcp_and_udp]
    contacted exactly two destination ports, 22 and 80, which is one less
    than the threshold 3, and it is flagged; the 0 recorded for its UDP
    datagram is counted as a third port. *)
Lemma flagged_below_nonzero_threshold :
  unique_nonzero_ports (extract_packet_data_security tcp_and_udp) "10.0.0.1"
  = 3 - 1
  /\ flagged (extract_packet_data_security tcp_and_udp) 3 "10.0.0.1".
Proof.
  split; [reflexivity |].
  eexists; split; [reflexivity |]. simpl. now left.
Qed.

(** C7, amended: for every frame and every positive threshold [T], a source
    with exactly [T] distinct destination ports is flagged, whether the 0 of
    packets without TCP layer is left out of the count or counted as a
    value: the comparison with the threshold is inclusive.  A source is not
    flagged when its distinct [dst_port] values, that 0 counted, number
    exactly [T - 1]. *)
Theorem port_scan_threshold_inclusive (df : DataFrame SecurityRow)
    (threshold : Z) (s : string) :
  0 < threshold ->
  (unique_nonzero_ports df s = threshold -> flagged df threshold s)
  /\ (unique_ports df s = threshold -> flagged df threshold s)
  /\ (unique_ports df s = threshold - 1 -> ~ flagged df threshold s).
Proof.
  intros Hpos. split.
  { intros Hn. apply flagged_from_nonzero_ports; [exact Hpos | lia]. }
  destruct df as [| r0 t].
  - split.
    + cbv [unique_ports ports_of]; simpl. lia.
    + intros _ [r [Hr _]]. rewrite detect_port_scanning_empty in Hr. discriminate.
  - assert (Hdf : r0 :: t <> []) by discriminate.
    destruct (detect_port_scanning_returns (r0 :: t) threshold Hdf)
      as [r [Hr [Hflag _]]].
    split.
    + intros Hn. exists r; split; [exact Hr |]. apply Hflag. lia.
    + intros Hn [r' [Hr' Hin]]. rewrite Hr in Hr'. inversion Hr'; subst r'.
      apply Hflag in Hin. lia.
Qed.

(** The source of [tcp_and_udp] has the ports 22 and 80 and the value 0 of
    its UDP datagram: flagged at threshold 2 by its two ports, flagged at
    threshold 3 by its three values, not flagged at threshold 4. *)
Lemma port_scan_threshold_inclusive_witness :
  flagged (extract_packet_data_security tcp_and_udp) 2 "10.0.0.1"
  /\ flagged (extract_packet_data_security tcp_and_udp) 3 "10.0.0.1"
  /\ ~ flagged (extract_packet_data_security tcp_and_udp) 4 "10.0.0.1".
Proof.
  split; [| split].
  - apply (proj1 (port_scan_threshold_inclusive
                    (extract_packet_data_security tcp_and_udp) 2 "10.0.0.1"
                    ltac:(lia))).
    reflexivity.
  - apply (proj1 (proj2 (port_scan_threshold_inclusive
                           (extract_packet_data_security tcp_and_udp) 3
                           "10.0.0.1" ltac:(lia)))).
    reflexivity.
  - apply (proj2 (proj2 (port_scan_threshold_inclusive
                           (extract_packet_data_security tcp_and_udp) 4
                           "10.0.0.1" ltac:(lia)))).
    reflexivity.
Defined.

(** X17: Monotonicity, as the specification lists it: a source flagged at one
    threshold is flagged at every lower one. *)
Lemma flagged_monotone (df : DataFrame SecurityRow) (t t' : Z) (s : string) :
  t' <= t -> flagged df t s -> flagged df t' s.
Proof.
  intros Hle [r [Hr Hin]].
  assert (Hdf : df <> [])
    by (intros ->; rewrite detect_port_scanning_empty in Hr; discriminate).
  destruct (detect_port_scanning_returns df t Hdf) as [r1 [Hr1 [Hflag1 _]]].
  destruct (detect_port_scanning_returns df t' Hdf) as [r2 [Hr2 [Hflag2 _]]].
  rewrite Hr in Hr1. inversion Hr1; subst r1.
  exists r2; split; [exact Hr2 |].
  apply Hflag2. apply Hflag1 in Hin. lia.
Qed.

(** * Properties of the traffic aggregator *)

(** C2, on the code: on a capture with zero IP records the frame has no
    columns; [analyze_packet_data] raises [KeyError('size')] where the
    specification promises a zero total and three empty tables, and
    [detect_port_scanning] raises [KeyError('src_ip')] where it promises no
    flagged source and no error. *)
Theorem capture_without_ip_raises (packets : list Scapy.Packet) (threshold : Z) :
  filter has_ip packets = [] ->
  analyze_packet_data (extract_packet_data packets) = Raise (KeyError "size")
  /\ detect_port_scanning (extract_packet_data_security packets) threshold
     = Raise (KeyError "src_ip").
Proof.
  intros Hnone. split.
  - apply extract_packet_data_nil in Hnone. now rewrite Hnone.
  - apply extract_packet_data_security_nil in Hnone. now rewrite Hnone.
Qed.

(** The empty capture, at the default threshold of the script. *)
Lemma empty_capture_raises :
  analyze_packet_data (extract_packet_data []) = Raise (KeyError "size")
  /\ detect_port_scanning (extract_packet_data_security []) 100
     = Raise (KeyError "src_ip").
Proof.
  apply (capture_without_ip_raises [] 100). reflexivity.
Defined.

(** C6: what the aggregator makes of the frame sizes of a capture.  When some
    packet carries an IP layer it returns, and the total bandwidth is the sum
    of the sizes of the IP packets, the others excluded; when none does, it
    raises [KeyError('size')] and there is no total. *)
Theorem total_bandwidth_of_capture (packets : list Scapy.Packet) :
  match analyze_packet_data (extract_packet_data packets) with
  | Ok r =>
      filter has_ip packets <> []
      /\ total_bandwidth r = Pandas.sum (ip_frame_sizes packets)
  | Raise e =>
      filter has_ip packets = [] /\ e = KeyError "size"
  end.
Proof.
  destruct (extract_packet_data packets) as [| r0 t] eqn:E.
  - rewrite analyze_packet_data_empty.
    split; [now apply extract_packet_data_nil | reflexivity].
  - assert (Hdf : r0 :: t <> []) by discriminate.
    destruct (analyze_packet_data_returns (r0 :: t) Hdf) as [r [Hr [Htotal _]]].
    rewrite Hr. split.
    + intros Hnone. apply extract_packet_data_nil in Hnone. congruence.
    + now rewrite Htotal, <- E, extract_packet_data_size.
Qed.

(** On a capture of one ARP frame the aggregator has no total to return. *)
Example arp_only_has_no_total :
  analyze_packet_data (extract_packet_data arp_only) = Raise (KeyError "size").
Proof. reflexivity. Qed.

(** ** Order of the pair table *)

(** C8, as the specification states it, fails: the three pairs of
    [three_pairs] have count 1 each, and the table lists 10.0.0.1 -> 10.0.0.2
    first although that pair was seen last.  [groupby] hands the pairs over
    in ascending key order, not in order of appearance. *)
Lemma ip_pair_ties_not_first_seen :
  exists r,
    analyze_packet_data three_pairs = Ok r
    /\ map ic_entry (ip_communication_table r)
       = [ (("10.0.0.1", "10.0.0.2"), 1); (("10.0.0.2", "10.0.0.1"), 1);
           (("10.0.0.3", "10.0.0.1"), 1) ]
    /\ ~ ties_in_first_seen_order three_pairs (ip_communication_table r).
Proof.
  eexists; split; [reflexivity |]. split; [reflexivity |].
  intros Hties.
  specialize (Hties 0%nat 1%nat _ _ (Nat.lt_0_succ 0) eq_refl eq_refl eq_refl).
  vm_compute in Hties. lia.
Qed.

(** C8, amended: whenever the aggregator returns, the pair table is sorted
    by count, descending, and it is a rearrangement of the groups of
    [groupby(["src_ip", "dst_ip"]).size()]: one entry per distinct pair with
    its number of rows.  Nothing is said of the order among equal counts. *)
Theorem ip_pair_table_count_descending (df : DataFrame Row) (r : Analysis) :
  analyze_packet_data df = Ok r ->
  count_descending (ip_communication_table r)
  /\ Permutation (map ic_entry (ip_communication_table r))
                 (Pandas.size (map pair_key df)).
Proof.
  intros Hr. pose proof (analyze_packet_data_Ok df r Hr) as Hdf.
  destruct (analyze_packet_data_returns df Hdf) as [r' [Hr' [_ [Htable _]]]].
  rewrite Hr in Hr'. inversion Hr'; subst r'. split.
  - unfold count_descending.
    apply (StronglySorted_map (fun a b => snd b <= snd a) ic_entry).
    rewrite Htable. apply sort_values_desc_sorted.
  - rewrite Htable. apply sort_values_desc_perm.
Qed.

Lemma ip_pair_table_count_descending_witness :
  count_descending (ip_communication_table scenario1_analysis)
  /\ Permutation (map ic_entry (ip_communication_table scenario1_analysis))
                 (Pandas.size (map pair_key scenario1)).
Proof.
  apply (ip_pair_table_count_descending scenario1 scenario1_analysis).
  vm_compute. reflexivity.
Defined.

(** ** Counts of the two groupings *)

(** C10: whenever the aggregator returns, for every row of the pair table the
    counts of the per-protocol rows with the same source and destination add
    up to the count of that row. *)
Theorem pair_count_consistent (df : DataFrame Row) (r : Analysis)
    (row : IpCommunicationRow) :
  analyze_packet_data df = Ok r ->
  In row (ip_communication_table r) ->
  pair_protocol_total r (ic_src_ip row) (ic_dst_ip row) = ic_count row.
Proof.
  intros Hr Hrow. pose proof (analyze_packet_data_Ok df r Hr) as Hdf.
  destruct (analyze_packet_data_returns df Hdf)
    as [r' [Hr' [_ [Htable Hprotocols]]]].
  rewrite Hr in Hr'. inversion Hr'; subst r'.
  apply (in_map ic_entry) in Hrow. rewrite Htable in Hrow.
  apply (Permutation_in _ (sort_values_desc_perm _)) in Hrow.
  unfold ic_entry in Hrow. apply In_size in Hrow. destruct Hrow as [_ Hcount].
  rewrite Hcount. unfold pair_protocol_total.
  rewrite Hprotocols, transform_percentage_counts.
  apply group_sum_size.
Qed.

Lemma pair_count_consistent_witness :
  pair_protocol_total mixed_protocols_analysis "A" "B" = 3.
Proof.
  apply (pair_count_consistent mixed_protocols mixed_protocols_analysis
           (mkIpCommunicationRow "A" "B" 3 75%float)).
  - vm_compute. reflexivity.
  - left. reflexivity.
Defined.

(** ** Frame sizes are not validated *)

(** C9, as the specification states it, fails: on [negative_size] the
    aggregator raises nothing; it returns its tables and a total of -5. *)
Lemma negative_size_accepted :
  Exists (fun row => size row < 0) negative_size
  /\ exists r,
       analyze_packet_data negative_size = Ok r
       /\ total_bandwidth r = -5
       /\ map ic_entry (ip_communication_table r)
          = [ (("10.0.0.1", "10.0.0.2"), 1) ].
Proof.
  split; [left; simpl; lia |].
  eexists; split; [reflexivity |]. split; reflexivity.
Qed.

(** C9, amended: the aggregator does not look at the sign of the sizes.  On
    every frame with at least one row, negative sizes or not, it returns;
    and when the sizes and their sum fit a signed 64-bit integer, as the
    [int64] column and its sum require, the total bandwidth is the signed sum
    of the [size] column. *)
Theorem aggregator_accepts_any_size (df : DataFrame Row) :
  df <> [] ->
  exists r,
    analyze_packet_data df = Ok r
    /\ (Forall (fun row => int64 (size row)) df ->
        int64 (Pandas.sum (map size df)) ->
        total_bandwidth r = Pandas.sum (map size df)).
Proof.
  intros Hdf.
  destruct (analyze_packet_data_returns df Hdf) as [r [Hr [Htotal _]]].
  exists r; split; [exact Hr | intros _ _; exact Htotal].
Qed.

Lemma aggregator_accepts_any_size_witness :
  exists r,
    analyze_packet_data negative_size = Ok r
    /\ total_bandwidth r = Pandas.sum (map size negative_size).
Proof.
  destruct (aggregator_accepts_any_size negative_size) as [r [Hr Htotal]];
    [discriminate |].
  exists r; split; [exact Hr |]. apply Htotal.
  - repeat constructor; simpl; lia.
  - unfold int64; simpl; lia.
Defined.

(** * The scenarios of the specification, evaluated *)

(** Scenario 1: 350 bytes; TCP twice and UDP once; A -> B twice and A -> C
    once.  The percentages are the binary64 values nearest to 200/3 and
    100/3. *)
Example scenario1_tables :
  total_bandwidth scenario1_analysis = 350
  /\ protocol_frequency scenario1_analysis = [ ("TCP", 2); ("UDP", 1) ]
  /\ map ic_entry (ip_communication_table scenario1_analysis)
     = [ (("A", "B"), 2); (("A", "C"), 1) ]
  /\ map pc_Percentage (protocol_counts_df scenario1_analysis)
     = [ 0x1.0aaaaaaaaaaaap+6%float; 0x1.0aaaaaaaaaaaap+5%float ].
Proof. repeat split. Qed.

(** The percentages of scenario 1 do not add up to 100.0 in binary64: their
    sum is 99.99999999999999, within the tolerance of the specification. *)
Example scenario1_percentages :
  float_sum (map pc_Percentage (protocol_counts_df scenario1_analysis))
  = 0x1.8ffffffffffffp+6%float
  /\ close_to_100
       (float_sum (map pc_Percentage (protocol_counts_df scenario1_analysis)))
     = true.
Proof. split; vm_compute; reflexivity. Qed.

(** On the sample frames the percentages of each table, and of the rows of
    the pair A -> B, add up to 100 within the tolerance. *)
Example sample_percentages_close :
  protocol_percentages_close scenario1_analysis
  /\ pair_percentages_close scenario1_analysis
  /\ protocol_percentages_close mixed_protocols_analysis
  /\ pair_percentages_close mixed_protocols_analysis
  /\ pair_protocol_percentages_close mixed_protocols_analysis "A" "B".
Proof. repeat split; vm_compute; reflexivity. Qed.

(** Scenario 2: a source reaching 150 distinct ports is flagged at threshold
    100, one reaching 50 is not. *)
Example scenario2_flags :
  option_map ip_addresses
    (match detect_port_scanning scenario2 100 with
     | Ok r => Some r
     | Raise _ => None
     end)
  = Some [ "X" ].
Proof. vm_compute. reflexivity. Qed.

(** [protocol_name] on the three known numbers and on another one. *)
Example protocol_name_values :
  map protocol_name [1; 6; 17; 47]
  = [ "ICMP"; "TCP"; "UDP"; "Unknown(47)" ].
Proof. reflexivity. Qed.

(** * The order of the keys *)

Lemma ascii_compare_lt_trans (a b c : ascii) :
  Ascii.compare a b = Lt -> Ascii.compare b c = Lt -> Ascii.compare a c = Lt.
Proof.
  unfold Ascii.compare. rewrite !N.compare_lt_iff. apply N.lt_trans.
Qed.

Lemma ascii_compare_refl (a : ascii) : Ascii.compare a a = Eq.
Proof. unfold Ascii.compare. apply N.compare_refl. Qed.

Lemma string_compare_refl (s : string) : String.compare s s = Eq.
Proof.
  induction s as [| a s IH]; simpl; [reflexivity |].
  now rewrite ascii_compare_refl.
Qed.

Lemma string_compare_lt_trans (s1 s2 s3 : string) :
  String.compare s1 s2 = Lt -> String.compare s2 s3 = Lt ->
  String.compare s1 s3 = Lt.
Proof.
  revert s2 s3; induction s1 as [| a s1 IH]; intros [| b s2] [| c s3];
    simpl; try congruence.
  destruct (Ascii.compare a b) eqn:Eab; try discriminate.
  - apply Ascii.compare_eq_iff in Eab; subst b.
    destruct (Ascii.compare a c); try congruence. apply IH.
  - intros _. destruct (Ascii.compare b c) eqn:Ebc; try discriminate.
    + apply Ascii.compare_eq_iff in Ebc; subst c. now rewrite Eab.
    + now rewrite (ascii_compare_lt_trans a b c Eab Ebc).
Qed.

Lemma string_leb_trans (s1 s2 s3 : string) :
  String.leb s1 s2 = true -> String.leb s2 s3 = true -> String.leb s1 s3 = true.
Proof.
  unfold String.leb.
  destruct (String.compare s1 s2) eqn:E12; try discriminate; intros _.
  - apply String.compare_eq_iff in E12; subst s2. trivial.
  - destruct (String.compare s2 s3) eqn:E23; try discriminate; intros _.
    + apply String.compare_eq_iff in E23; subst s3. now rewrite E12.
    + now rewrite (string_compare_lt_trans s1 s2 s3 E12 E23).
Qed.

#[export] Instance KeyOrder_string : KeyOrder string.
Proof.
  constructor.
  - exact String.leb_total.
  - exact string_leb_trans.
  - exact String.leb_antisym.
Qed.

#[export] Instance KeyOrder_Z : KeyOrder Z.
Proof.
  constructor; cbn; intros; rewrite ?Z.leb_le in *; lia.
Qed.

Lemma leb_refl {K : Type} `{KeyOrder K} (a : K) : leb a a = true.
Proof. destruct (leb_total a a); assumption. Qed.

#[export] Instance KeyOrder_pair {A B : Type}
    `{KeyLaws A} `{KeyLaws B} `{!KeyOrder A} `{!KeyOrder B} : KeyOrder (A * B).
Proof.
  constructor.
  - intros [a b] [c d]; cbn.
    destruct (eqb_spec a c) as [-> | Hac].
    + rewrite eqb_refl. apply leb_total.
    + replace (eqb c a) with false by (symmetry; apply eqb_neq; congruence).
      apply leb_total.
  - intros [a b] [c d] [e f]; cbn.
    destruct (eqb_spec a c) as [-> | Hac].
    + destruct (eqb_spec c e) as [-> | Hce]; [apply leb_trans | trivial].
    + destruct (eqb_spec c e) as [-> | Hce].
      * intros Hle _. now replace (eqb a e) with false
          by (symmetry; apply eqb_neq; congruence).
      * intros Hac' Hce'. destruct (eqb_spec a e) as [-> | Hae].
        -- exfalso. apply Hac. now apply leb_antisym.
        -- now apply (leb_trans a c e).
  - intros [a b] [c d]; cbn.
    destruct (eqb_spec a c) as [-> | Hac].
    + rewrite eqb_refl. intros Hbd Hdb. f_equal. now apply leb_antisym.
    + replace (eqb c a) with false by (symmetry; apply eqb_neq; congruence).
      intros Hle Hge. exfalso. apply Hac. now apply leb_antisym.
Qed.

(** Two sorted lists with the same elements are the same list. *)
Lemma sorted_perm_eq {A : Type} (le : A -> A -> Prop) (l l' : list A) :
  (forall a b, le a b -> le b a -> a = b) ->
  StronglySorted le l -> StronglySorted le l' -> Permutation l l' -> l = l'.
Proof.
  intros Hanti Hl; revert l'.
  induction Hl as [| x t Ht IH Hx]; intros l' Hl' Hp.
  - now apply Permutation_nil in Hp.
  - destruct Hl' as [| y t' Ht' Hy].
    + apply Permutation_sym, Permutation_nil in Hp. discriminate.
    + assert (Exy : x = y).
      { assert (Hin : In x (y :: t'))
          by (apply (Permutation_in _ Hp); now left).
        assert (Hin' : In y (x :: t))
          by (apply (Permutation_in _ (Permutation_sym Hp)); now left).
        destruct Hin as [E | Hin]; [now symmetry |].
        destruct Hin' as [E | Hin']; [exact E |].
        rewrite Forall_forall in Hx, Hy. apply Hanti; auto. }
      subst y. f_equal. apply IH; [exact Ht' |].
      now apply Permutation_cons_inv in Hp.
Qed.

Section SizeOrder.
Context {K : Type} `{KeyLaws K} `{!KeyOrder K}.

Lemma sorted_keys (l : list K) :
  StronglySorted (fun a b => leb a b = true) (isort leb l).
Proof. apply isort_sorted; [apply leb_total | apply leb_trans]. Qed.

(** The sorted distinct keys depend on the set of keys only. *)
Lemma sorted_unique_canonical (l l' : list K) :
  (forall k, In k l <-> In k l') ->
  isort leb (unique l) = isort leb (unique l').
Proof.
  intros Hset.
  apply (sorted_perm_eq (fun a b => leb a b = true));
    [apply leb_antisym | apply sorted_keys | apply sorted_keys |].
  rewrite !isort_perm.
  apply NoDup_Permutation; [apply NoDup_unique | apply NoDup_unique |].
  intros k. rewrite !In_unique. apply Hset.
Qed.

(** [size] does not depend on the order of the rows. *)
Lemma size_perm (l l' : list K) :
  Permutation l l' -> Pandas.size l = Pandas.size l'.
Proof.
  intros Hp. unfold Pandas.size.
  rewrite (sorted_unique_canonical l l').
  - apply map_ext. intros k. now rewrite (count_perm k l l' Hp).
  - intros k. split; apply Permutation_in; [exact Hp | now symmetry].
Qed.

(** The keys of [size] are in ascending order. *)
Lemma size_keys_sorted (l : list K) :
  StronglySorted (fun a b => leb (fst a) (fst b) = true) (Pandas.size l).
Proof.
  apply (StronglySorted_map (fun a b : K => leb a b = true) fst).
  unfold Pandas.size. rewrite map_map; cbn [fst]. rewrite map_id.
  apply sorted_keys.
Qed.

End SizeOrder.

(** * Protocol names *)

(** The dict lookup of [protocol_name], as a chain of tests. *)
Lemma protocol_name_cases (n : Z) :
  protocol_name n
  = if n =? 1 then "ICMP"
    else if n =? 6 then "TCP"
    else if n =? 17 then "UDP"
    else "Unknown(" ++ str n ++ ")".
Proof.
  destruct n as [| p | p]; try reflexivity.
  do 5 (destruct p as [p | p |]; try reflexivity).
Qed.

Lemma append_inj_l (s t u : string) : s ++ t = s ++ u -> t = u.
Proof.
  induction s as [| a s IH]; simpl; [trivial |].
  intros E; inversion E; auto.
Qed.

Lemma append_char_inj (s t : string) (c : ascii) :
  s ++ String c "" = t ++ String c "" -> s = t.
Proof.
  revert t; induction s as [| a s IH]; intros [| b t]; simpl; intros E;
    try reflexivity.
  - inversion E as [[Ea Et]]. destruct t; discriminate.
  - inversion E as [[Ea Es]]. destruct s; discriminate.
  - inversion E; subst. f_equal. now apply IH.
Qed.

(** The decimal digits determine the integer. *)
Lemma to_int_not_nil (n : Z) :
  Z.to_int n <> Decimal.Pos Decimal.Nil /\ Z.to_int n <> Decimal.Neg Decimal.Nil.
Proof.
  destruct n as [| p | p]; simpl; split; try discriminate;
    intros E; inversion E as [Ep];
    now apply (DecimalPos.Unsigned.to_uint_nonnil p).
Qed.

Lemma str_inj (m n : Z) : str m = str n -> m = n.
Proof.
  unfold str; intros E. apply DecimalZ.to_int_inj.
  destruct (to_int_not_nil m) as [Hm1 Hm2], (to_int_not_nil n) as [Hn1 Hn2].
  pose proof (NilZero.isi (Z.to_int m) Hm1 Hm2) as Em.
  pose proof (NilZero.isi (Z.to_int n) Hn1 Hn2) as En.
  rewrite E in Em. congruence.
Qed.

(** Distinct protocol numbers have distinct names: no two protocols share
    a row of the protocol distribution or a label of the per-protocol
    table. *)
Theorem protocol_name_inj (m n : Z) :
  protocol_name m = protocol_name n -> m = n.
Proof.
  rewrite !protocol_name_cases.
  destruct (Z.eqb_spec m 1), (Z.eqb_spec m 6), (Z.eqb_spec m 17),
           (Z.eqb_spec n 1), (Z.eqb_spec n 6), (Z.eqb_spec n 17);
    subst; try discriminate; try reflexivity; try lia.
  intros E. apply append_inj_l, append_char_inj in E. now apply str_inj.
Qed.

(** * More on the two extraction passes *)

Lemma extract_packet_data_app (p q : list Scapy.Packet) :
  extract_packet_data (List.app p q)
  = List.app (extract_packet_data p) (extract_packet_data q).
Proof.
  induction p as [| x p IH]; simpl; [reflexivity |].
  destruct (Scapy.ip x); simpl; now rewrite IH.
Qed.

(** X1: [extract_packet_data] makes one row per packet with an IP layer and none
    for the others: removing the packets without IP layer from the capture
    changes nothing. *)
Theorem extract_packet_data_skips_non_ip (packets : list Scapy.Packet) :
  extract_packet_data packets = extract_packet_data (filter has_ip packets)
  /\ List.length (extract_packet_data packets)
     = List.length (filter has_ip packets).
Proof.
  split.
  - induction packets as [| x p IH]; [reflexivity |].
    cbn [filter]. unfold has_ip at 1.
    destruct (Scapy.ip x) as [layer |] eqn:E; cbn [extract_packet_data];
      rewrite E; [now rewrite IH | exact IH].
  - induction packets as [| x p IH]; [reflexivity |].
    cbn [filter extract_packet_data]. unfold has_ip at 1.
    destruct (Scapy.ip x); cbn [List.length]; now rewrite IH.
Qed.

(** X2: The frame of the port-scan pass is the frame of the first pass with one
    more column: same rows, same order. *)
Theorem security_frame_extends_frame (packets : list Scapy.Packet) :
  map base (extract_packet_data_security packets) = extract_packet_data packets.
Proof.
  induction packets as [| x p IH]; simpl; [reflexivity |].
  destruct (Scapy.ip x); simpl; now rewrite IH.
Qed.

(** Without TCP layer every row gets port 0. *)
Lemma extract_packet_data_security_no_tcp (packets : list Scapy.Packet) :
  (forall p, In p packets -> Scapy.tcp p = None) ->
  forall r, In r (extract_packet_data_security packets) -> dst_port r = 0.
Proof.
  induction packets as [| x p IH]; simpl; intros Hno r Hr; [contradiction |].
  destruct (Scapy.ip x).
  - destruct Hr as [<- | Hr].
    + simpl. now rewrite (Hno x (or_introl eq_refl)).
    + apply IH; auto.
  - apply IH; auto.
Qed.

(** * More on the port-scan heuristic *)

Lemma unique_NoDup_id {K : Type} `{KeyLaws K} (l : list K) :
  NoDup l -> unique l = l.
Proof.
  induction 1 as [| x t Hx Ht IH]; simpl; [reflexivity |].
  rewrite IH. f_equal. apply filter_all.
  intros y Hy. apply negb_true_iff, eqb_neq. congruence.
Qed.

Lemma StronglySorted_filter {A : Type} (R : A -> A -> Prop) (f : A -> bool)
    (l : list A) :
  StronglySorted R l -> StronglySorted R (filter f l).
Proof.
  induction 1 as [| x t Ht IH Hx]; simpl; [constructor |].
  destruct (f x); [| exact IH].
  constructor; [exact IH |].
  rewrite Forall_forall in *. intros y Hy. apply filter_In in Hy. now apply Hx.
Qed.

Lemma StronglySorted_map_fwd {A B : Type} (R : B -> B -> Prop) (f : A -> B)
    (l : list A) :
  StronglySorted (fun a b => R (f a) (f b)) l -> StronglySorted R (map f l).
Proof.
  induction 1 as [| x t Ht IH Hx]; simpl; constructor; [exact IH |].
  now rewrite Forall_map.
Qed.

Lemma unique_ports_only_port (df : DataFrame SecurityRow) (s : string) (p : Z) :
  only_port df s p -> unique_ports df s <= 1.
Proof.
  intros Honly. unfold unique_ports, ports_of.
  assert (Hall : forall q,
             In q (map dst_port (filter (from_source s) df)) -> q = p).
  { intros q Hq. apply in_map_iff in Hq. destruct Hq as [r [<- Hr]].
    apply filter_In in Hr. destruct Hr as [Hr Hs]. apply eqb_eq in Hs.
    apply Honly; [exact Hr | now symmetry]. }
  pose proof (NoDup_unique (map dst_port (filter (from_source s) df))) as Hnd.
  assert (Hall' : forall q,
             In q (unique (map dst_port (filter (from_source s) df))) -> q = p)
    by (intros q Hq; rewrite In_unique in Hq; exact (Hall q Hq)).
  destruct (unique _) as [| a [| b l]]; cbn [List.length]; try lia.
  exfalso. inversion Hnd as [| ? ? Ha _]; subst. apply Ha. left.
  rewrite (Hall' a), (Hall' b); simpl; auto.
Qed.

Lemma NoDup_map_filter {A B : Type} (f : A -> B) (g : A -> bool) (l : list A) :
  NoDup (map f l) -> NoDup (map f (filter g l)).
Proof.
  induction l as [| x t IH]; simpl; intros Hnd; [constructor |].
  inversion Hnd as [| ? ? Hx Ht]; subst.
  destruct (g x); simpl; [| now apply IH].
  constructor; [| now apply IH].
  intros Hin. apply Hx. apply in_map_iff in Hin. destruct Hin as [y [E Hy]].
  apply filter_In in Hy. rewrite <- E. apply in_map. tauto.
Qed.

Lemma NoDup_size_keys {K : Type} `{KeyLaws K} (keys : list K) :
  NoDup (map fst (Pandas.size keys)).
Proof.
  eapply Permutation_NoDup;
    [symmetry; apply size_keys_perm | apply NoDup_unique].
Qed.

(** The sources that the second [groupby] sees: the first components of the
    sorted distinct [(src_ip, dst_port)] keys. *)
Lemma port_scan_df_sources (keys : list (string * Z)) :
  map (fun e => fst (fst e)) (Pandas.size keys)
  = map fst (isort leb (unique keys)).
Proof. unfold Pandas.size. now rewrite map_map. Qed.

(** What [detect_port_scanning] returns on a frame with rows, with the last
    [unique] dropped: the sources are distinct already. *)
Lemma detect_port_scanning_value (df : DataFrame SecurityRow) (threshold : Z)
    (r : PortScan) :
  detect_port_scanning df threshold = Ok r ->
  ip_addresses r
  = map fst (filter (fun e => threshold <=? snd e)
               (Pandas.size (map fst (isort leb (unique (map port_key df))))))
  /\ warnings r
     = match ip_addresses r with
       | [] => []
       | _ :: _ => ["Potential port scanning detected from IP addresses: "
                    ++ String.concat ", " (ip_addresses r)]
       end.
Proof.
  destruct df as [| r0 t]; [discriminate |].
  intros E; inversion E; subst r; clear E. cbn [ip_addresses warnings].
  rewrite port_scan_df_sources.
  change (map (fun r => (src_ip (base r), dst_port r)) (r0 :: t))
    with (map port_key (r0 :: t)).
  rewrite unique_NoDup_id
    by (apply (NoDup_map_filter fst), NoDup_size_keys).
  split; [reflexivity |].
  destruct (map fst (filter _ _)) as [| a l]; [reflexivity |].
  cbn [List.length].
  now replace (0 <? Z.of_nat (S (List.length l))) with true
    by (symmetry; apply Z.ltb_lt; lia).
Qed.

(** X12: The flagged sources come in ascending order, each once, and the warning,
    when there is one, is a single record that lists them in that order,
    separated by a comma and a space. *)
Theorem warning_lists_sources_ascending (df : DataFrame SecurityRow)
    (threshold : Z) (r : PortScan) :
  detect_port_scanning df threshold = Ok r ->
  StronglySorted (fun a b => String.leb a b = true) (ip_addresses r)
  /\ NoDup (ip_addresses r)
  /\ (ip_addresses r = [] -> warnings r = [])
  /\ (ip_addresses r <> [] ->
      warnings r = ["Potential port scanning detected from IP addresses: "
                    ++ String.concat ", " (ip_addresses r)]).
Proof.
  intros Hr. destruct (detect_port_scanning_value df threshold r Hr) as [Hip Hw].
  split; [| split; [| split]].
  - rewrite Hip. apply StronglySorted_map_fwd, StronglySorted_filter.
    exact (size_keys_sorted (K := string) _).
  - rewrite Hip. apply (NoDup_map_filter fst), NoDup_size_keys.
  - intros E. now rewrite Hw, E.
  - intros Hne. rewrite Hw. destruct (ip_addresses r); congruence.
Qed.

(** X13: The heuristic looks at the set of [(src_ip, dst_port)] combinations only:
    two frames with the same combinations get the same result, however the
    rows are ordered or repeated and whatever their destination, protocol and
    size. *)
Theorem detect_port_scanning_by_port_set (df df' : DataFrame SecurityRow)
    (threshold : Z) :
  df <> [] -> df' <> [] ->
  (forall k, In k (map port_key df) <-> In k (map port_key df')) ->
  detect_port_scanning df threshold = detect_port_scanning df' threshold.
Proof.
  intros Hdf Hdf' Hset.
  destruct df as [| r0 t]; [congruence |].
  destruct df' as [| r0' t']; [congruence |].
  unfold detect_port_scanning, groupby, bind.
  rewrite !port_scan_df_sources.
  change (map (fun r => (src_ip (base r), dst_port r)) (r0 :: t))
    with (map port_key (r0 :: t)).
  change (map (fun r => (src_ip (base r), dst_port r)) (r0' :: t'))
    with (map port_key (r0' :: t')).
  now rewrite (sorted_unique_canonical _ _ Hset).
Qed.

(** X14: A threshold of 0 or less flags every source of the frame. *)
Theorem nonpositive_threshold_flags_all (df : DataFrame SecurityRow)
    (threshold : Z) (r : PortScan) :
  threshold <= 0 ->
  detect_port_scanning df threshold = Ok r ->
  forall s, In s (ip_addresses r) <-> In s (map (fun x => src_ip (base x)) df).
Proof.
  intros Hle Hr s.
  assert (Hdf : df <> [])
    by (intros ->; rewrite detect_port_scanning_empty in Hr; discriminate).
  destruct (detect_port_scanning_returns df threshold Hdf) as [r' [Hr' [Hflag _]]].
  rewrite Hr in Hr'. inversion Hr'; subst r'.
  rewrite Hflag, <- unique_ports_pos. split; [tauto | lia].
Qed.

(** X15: A source whose packets all go to one port is not flagged at a threshold
    of 2 or more, however many packets it sends and to however many hosts. *)
Theorem single_port_source_not_flagged (df : DataFrame SecurityRow)
    (threshold : Z) (s : string) (p : Z) :
  only_port df s p -> 2 <= threshold -> ~ flagged df threshold s.
Proof.
  intros Honly Hle [r [Hr Hin]].
  assert (Hdf : df <> [])
    by (intros ->; rewrite detect_port_scanning_empty in Hr; discriminate).
  destruct (detect_port_scanning_returns df threshold Hdf) as [r' [Hr' [Hflag _]]].
  rewrite Hr in Hr'. inversion Hr'; subst r'.
  apply Hflag in Hin. pose proof (unique_ports_only_port df s p Honly). lia.
Qed.

(** X16: On a capture with IP packets and without any TCP segment every
    row gets the port value 0, and at a threshold of 2 or more the heuristic
    returns without a flagged source and without a warning. *)
Theorem capture_without_tcp_not_flagged (packets : list Scapy.Packet)
    (threshold : Z) :
  (forall p, In p packets -> Scapy.tcp p = None) ->
  filter has_ip packets <> [] ->
  2 <= threshold ->
  (forall r, In r (extract_packet_data_security packets) -> dst_port r = 0)
  /\ detect_port_scanning (extract_packet_data_security packets) threshold
     = Ok (mkPortScan [] []).
Proof.
  intros Hno Hip Hle.
  pose proof (extract_packet_data_security_no_tcp packets Hno) as Hzero.
  split; [exact Hzero |].
  assert (Hdf : extract_packet_data_security packets <> [])
    by (intros E; apply extract_packet_data_security_nil in E; contradiction).
  destruct (detect_port_scanning_returns _ threshold Hdf) as [r [Hr [Hflag Hw]]].
  rewrite Hr. f_equal.
  assert (Hnone : ip_addresses r = []).
  { destruct (ip_addresses r) as [| s l] eqn:E; [reflexivity |].
    exfalso.
    assert (Hs : In s (s :: l)) by now left.
    apply Hflag in Hs.
    assert (unique_ports (extract_packet_data_security packets) s <= 1).
    { apply (unique_ports_only_port _ s 0). intros x Hx _. now apply Hzero. }
    lia. }
  destruct r as [ips ws]; cbn [ip_addresses warnings] in *.
  subst ips. f_equal. now apply Hw.
Qed.

(** * More on the traffic aggregator *)

Lemma NoDup_map_inj {A B : Type} (f : A -> B) (l : list A) :
  (forall a b, f a = f b -> a = b) -> NoDup l -> NoDup (map f l).
Proof.
  intros Hf; induction 1 as [| x t Hx Ht IH]; simpl; constructor; [| exact IH].
  intros Hin. apply in_map_iff in Hin. destruct Hin as [y [E Hy]].
  apply Hf in E. congruence.
Qed.

Lemma count_le_length {K : Type} `{Key K} (k : K) (l : list K) :
  (count k l <= List.length l)%nat.
Proof. apply filter_length_le. Qed.

Lemma filter_length_incl {A : Type} (f g : A -> bool) (l : list A) :
  (forall x, f x = true -> g x = true) ->
  (List.length (filter f l) <= List.length (filter g l))%nat.
Proof.
  intros Hfg; induction l as [| x t IH]; simpl; [lia |].
  destruct (f x) eqn:Ef.
  - rewrite (Hfg x Ef). simpl. lia.
  - destruct (g x); simpl; lia.
Qed.

Lemma pair_leb_fst {A B : Type} `{KeyLaws A} `{Key B} `{!KeyOrder A}
    (p q : A * B) :
  leb p q = true -> leb (fst p) (fst q) = true.
Proof.
  destruct p as [a b], q as [c d]; cbn.
  destruct (eqb_spec a c) as [-> | Hac]; [intros _; apply leb_refl | trivial].
Qed.

(** X4: The protocol distribution has one row per distinct protocol number of the
    frame, under a name of its own, with the number of rows of that
    protocol, and the rows are sorted by count, descending. *)
Theorem protocol_distribution_groups (df : DataFrame Row) (r : Analysis) :
  analyze_packet_data df = Ok r ->
  StronglySorted (fun a b => pc_Count b <= pc_Count a) (protocol_counts_df r)
  /\ Permutation (map pc_entry (protocol_counts_df r))
       (map (fun k => (protocol_name k, Z.of_nat (count k (map protocol df))))
            (unique (map protocol df)))
  /\ NoDup (map pc_Protocol (protocol_counts_df r)).
Proof.
  intros Hr. rewrite (protocol_counts_df_rows df r Hr).
  split; [| split].
  - apply StronglySorted_map_fwd. cbn [pc_Count].
    apply sort_values_desc_sorted.
  - rewrite map_map. unfold pc_entry; cbn [pc_Protocol pc_Count].
    unfold value_counts.
    rewrite (Permutation_map _ (sort_values_desc_perm _)).
    rewrite map_map. reflexivity.
  - rewrite map_map; cbn [pc_Protocol]. unfold value_counts.
    eapply Permutation_NoDup.
    + symmetry. apply Permutation_map, sort_values_desc_perm.
    + rewrite map_map; cbn [fst].
      apply NoDup_map_inj; [apply protocol_name_inj | apply NoDup_unique].
Qed.

(** X8: Every count is at least 1 and at most the number of rows of the frame,
    and a per-protocol count is at most the total of its pair: no percentage
    has a zero denominator. *)
Theorem counts_within_bounds (df : DataFrame Row) (r : Analysis) :
  analyze_packet_data df = Ok r ->
  (forall row, In row (protocol_counts_df r) ->
     1 <= pc_Count row <= Z.of_nat (List.length df))
  /\ (forall row, In row (ip_communication_table r) ->
        1 <= ic_count row <= Z.of_nat (List.length df))
  /\ (forall row, In row (ip_communication_protocols r) ->
        1 <= Count row
        <= pair_protocol_total r (Source_IP row) (Destination_IP row)
        /\ pair_protocol_total r (Source_IP row) (Destination_IP row)
           <= Z.of_nat (List.length df)).
Proof.
  intros Hr. split; [| split].
  - intros row Hrow. rewrite (protocol_counts_df_rows df r Hr) in Hrow.
    apply in_map_iff in Hrow. destruct Hrow as [[k c] [<- Hin]].
    cbn [pc_Count snd]. unfold value_counts in Hin.
    apply (Permutation_in _ (sort_values_desc_perm _)) in Hin.
    apply in_map_iff in Hin. destruct Hin as [k' [E Hk]].
    inversion E; subst. rewrite In_unique in Hk.
    pose proof (proj1 (count_pos _ _) Hk).
    pose proof (count_le_length k (map protocol df)) as Hle.
    rewrite length_map in Hle. lia.
  - intros row Hrow. rewrite (ip_communication_table_rows df r Hr) in Hrow.
    apply in_map_iff in Hrow. destruct Hrow as [[k c] [<- Hin]].
    cbn [ic_count snd].
    apply (Permutation_in _ (sort_values_desc_perm _)) in Hin.
    apply In_size in Hin. destruct Hin as [Hk ->].
    pose proof (proj1 (count_pos _ _) Hk).
    pose proof (count_le_length k (map pair_key df)) as Hle.
    rewrite length_map in Hle. lia.
  - intros row Hrow.
    assert (Htotal : pair_protocol_total r (Source_IP row) (Destination_IP row)
                     = Z.of_nat (count (Source_IP row, Destination_IP row)
                                       (map pair_key df))).
    { pose proof (analyze_packet_data_Ok df r Hr) as Hdf.
      destruct (analyze_packet_data_returns df Hdf) as [r' [Hr' [_ [_ Hp]]]].
      rewrite Hr in Hr'. inversion Hr'; subst r'.
      unfold pair_protocol_total.
      rewrite Hp, transform_percentage_counts. apply group_sum_size. }
    rewrite Htotal.
    rewrite (ip_communication_protocols_rows df r Hr) in Hrow.
    apply in_map_iff in Hrow. destruct Hrow as [[[[s d] p] c] [<- Hin]].
    cbn [Count Source_IP Destination_IP fst snd].
    apply In_size in Hin. destruct Hin as [Hk ->].
    pose proof (proj1 (count_pos _ _) Hk) as Hpos.
    pose proof (count_le_length (s, d) (map pair_key df)) as Hle.
    rewrite length_map in Hle.
    assert (Hsub : (count (s, d, p) (map triple_key df)
                    <= count (s, d) (map pair_key df))%nat).
    { rewrite <- pair_rows_by_triple. apply filter_length_incl.
      intros k Hk'. apply (eqb_eq (K := string * string * Z)) in Hk'.
      subst k. apply eqb_refl. }
    lia.
Qed.

(** The source, destination and protocol label of a row of the per-protocol
    table. *)
Lemma ip_protocol_labels (df : DataFrame Row) (r : Analysis) :
  analyze_packet_data df = Ok r ->
  map icp_label (ip_communication_protocols r)
  = map (fun e => (fst (fst (fst e)), snd (fst (fst e)),
                   protocol_name (snd (fst e))))
        (Pandas.size (map triple_key df)).
Proof.
  intros Hr. rewrite (ip_communication_protocols_rows df r Hr), map_map.
  reflexivity.
Qed.

(** X9: The per-protocol table has one row per distinct (source, destination,
    protocol) of the frame, no two rows with the same three labels, and its
    rows are in ascending order of (source, destination), so that the rows of
    a pair stand together. *)
Theorem per_protocol_table_layout (df : DataFrame Row) (r : Analysis) :
  analyze_packet_data df = Ok r ->
  StronglySorted (fun a b => leb (icp_pair a) (icp_pair b) = true)
                 (ip_communication_protocols r)
  /\ NoDup (map icp_label (ip_communication_protocols r))
  /\ forall s d p,
       In (s, d, protocol_name p) (map icp_label (ip_communication_protocols r))
       <-> In (s, d, p) (map triple_key df).
Proof.
  intros Hr. split; [| split].
  - rewrite (ip_communication_protocols_rows df r Hr).
    apply (StronglySorted_map_fwd
             (fun a b : IpProtocolRow => leb (icp_pair a) (icp_pair b) = true)).
    unfold icp_pair; cbn [Source_IP Destination_IP].
    eapply StronglySorted_impl;
      [| exact (size_keys_sorted (K := string * string * Z) (map triple_key df))].
    intros [[[s d] p] c] [[[s' d'] p'] c'] Hle. cbn [fst snd] in *.
    exact (pair_leb_fst (A := string * string) (B := Z) _ _ Hle).
  - rewrite (ip_protocol_labels df r Hr).
    rewrite <- (map_map fst (fun k : string * string * Z =>
                               (fst (fst k), snd (fst k), protocol_name (snd k)))).
    apply NoDup_map_inj; [| apply NoDup_size_keys].
    intros [[s d] p] [[s' d'] p'] E. cbn [fst snd] in E.
    inversion E as [[Es Ed Ep]]. apply protocol_name_inj in Ep. congruence.
  - intros s d p. rewrite (ip_protocol_labels df r Hr), in_map_iff. split.
    + intros [[[[s' d'] p'] c] [E Hin]]. cbn [fst snd] in E.
      inversion E as [[Es Ed Ep]]. apply protocol_name_inj in Ep. subst.
      now apply In_size in Hin.
    + intros Hin. exists ((s, d, p), Z.of_nat (count (s, d, p) (map triple_key df))).
      split; [reflexivity |]. apply In_size. auto.
Qed.

(** X10: The total, the pair table and the per-protocol table do not depend on
    the order of the rows of the frame. *)
Theorem analysis_order_independent (df df' : DataFrame Row) (r r' : Analysis) :
  Permutation df df' ->
  analyze_packet_data df = Ok r -> analyze_packet_data df' = Ok r' ->
  total_bandwidth r = total_bandwidth r'
  /\ ip_communication_table r = ip_communication_table r'
  /\ ip_communication_protocols r = ip_communication_protocols r'.
Proof.
  intros Hp Hr Hr'. split; [| split].
  - destruct (analyze_packet_data_returns df (analyze_packet_data_Ok df r Hr))
      as [r1 [Hr1 [Ht1 _]]].
    destruct (analyze_packet_data_returns df' (analyze_packet_data_Ok df' r' Hr'))
      as [r2 [Hr2 [Ht2 _]]].
    rewrite Hr in Hr1; inversion Hr1; subst r1.
    rewrite Hr' in Hr2; inversion Hr2; subst r2.
    rewrite Ht1, Ht2. apply sum_perm, Permutation_map, Hp.
  - rewrite (ip_communication_table_rows df r Hr),
            (ip_communication_table_rows df' r' Hr').
    rewrite (size_perm _ _ (Permutation_map pair_key Hp)).
    now rewrite (Permutation_length Hp).
  - rewrite (ip_communication_protocols_rows df r Hr),
            (ip_communication_protocols_rows df' r' Hr').
    rewrite (size_perm _ _ (Permutation_map triple_key Hp)).
    apply map_ext. intros [[[s d] p] c]. cbn [fst snd].
    now rewrite (count_perm (s, d) _ _ (Permutation_map pair_key Hp)).
Qed.

Lemma analysis_order_independent_witness :
  total_bandwidth scenario1_analysis = total_bandwidth scenario1_reversed_analysis
  /\ ip_communication_table scenario1_analysis
     = ip_communication_table scenario1_reversed_analysis
  /\ ip_communication_protocols scenario1_analysis
     = ip_communication_protocols scenario1_reversed_analysis.
Proof.
  apply (analysis_order_independent scenario1 (rev scenario1)).
  - apply Permutation_rev.
  - vm_compute. reflexivity.
  - vm_compute. reflexivity.
Defined.

(** The protocol distribution does depend on the order of the rows:
    [value_counts] starts from the protocols in order of first appearance,
    and on these two frames, where both protocols have one row, that is the
    order of the table. *)
Example protocol_distribution_follows_order :
  map pc_Protocol (protocol_counts_df (analysis_of
     [ mkRow "A" "B" 6 60; mkRow "A" "B" 17 60 ])) = [ "TCP"; "UDP" ]
  /\ map pc_Protocol (protocol_counts_df (analysis_of
     [ mkRow "A" "B" 17 60; mkRow "A" "B" 6 60 ])) = [ "UDP"; "TCP" ].
Proof. split; reflexivity. Qed.

(** * The run of [main] *)

(** [print_results] logs seven records at level INFO and returns. *)
Lemma print_results_run (rendering : Rendering) (a : Analysis) :
  ending (print_results rendering a) = Returned tt
  /\ List.length (records (print_results rendering a)) = 7%nat
  /\ Forall (fun rec => fst rec = INFO) (records (print_results rendering a)).
Proof.
  unfold print_results. destruct (bandwidth_display (total_bandwidth a)) as [u v].
  cbn. repeat split. repeat constructor.
Qed.

Lemma run_bind_pure {A B : Type} (a : A) (k : A -> run B) :
  run_bind (mkRun [] (Returned a)) k = k a.
Proof. unfold run_bind; cbn. now destruct (k a). Qed.

Lemma run_bind_returned {A B : Type} (m : run A) (k : A -> run B) (a : A) :
  ending m = Returned a ->
  run_bind m k = mkRun (List.app (records m) (records (k a))) (ending (k a)).
Proof. intros E. unfold run_bind. now rewrite E. Qed.

Lemma main_on_packets (rendering : Rendering) (pcap_file : string)
    (packets : list Scapy.Packet) (threshold : Z) :
  main rendering pcap_file (Packets packets) threshold
  = match analyze_packet_data (extract_packet_data packets) with
    | Raise e => mkRun [] (Raised e)
    | Ok a =>
        match detect_port_scanning (extract_packet_data_security packets)
                                   threshold with
        | Raise e => mkRun (records (print_results rendering a)) (Raised e)
        | Ok scan =>
            mkRun (List.app (records (print_results rendering a))
                            (map (pair WARNING) (warnings scan)))
                  (Returned tt)
        end
    end.
Proof.
  unfold main, read_pcap. rewrite run_bind_pure.
  destruct (analyze_packet_data (extract_packet_data packets)) as [a | e];
    [| reflexivity].
  unfold silent. rewrite run_bind_pure.
  destruct (print_results_run rendering a) as [Hend _].
  rewrite (run_bind_returned _ _ tt Hend).
  unfold run_detect_port_scanning.
  destruct (detect_port_scanning _ _); cbn [records ending];
    [reflexivity | now rewrite app_nil_r].
Qed.

(** Both analyses return on a capture with an IP packet. *)
Lemma main_analyses (packets : list Scapy.Packet) (threshold : Z) :
  filter has_ip packets <> [] ->
  exists a scan,
    analyze_packet_data (extract_packet_data packets) = Ok a
    /\ detect_port_scanning (extract_packet_data_security packets) threshold
       = Ok scan.
Proof.
  intros Hip.
  assert (Hdf : extract_packet_data packets <> [])
    by (intros E; apply extract_packet_data_nil in E; contradiction).
  assert (Hdf' : extract_packet_data_security packets <> [])
    by (intros E; apply extract_packet_data_security_nil in E; contradiction).
  destruct (analyze_packet_data_returns _ Hdf) as [a [Ha _]].
  destruct (detect_port_scanning_returns _ threshold Hdf') as [scan [Hscan _]].
  exists a, scan. split; assumption.
Qed.

(** X18: On a capture without IP packet [main] raises [KeyError('size')] before
    it has logged anything; the port scan is not reached. *)
Theorem main_without_ip_packets (rendering : Rendering) (pcap_file : string)
    (packets : list Scapy.Packet) (threshold : Z) :
  filter has_ip packets = [] ->
  main rendering pcap_file (Packets packets) threshold
  = mkRun [] (Raised (KeyError "size")).
Proof.
  intros Hnone. rewrite main_on_packets.
  apply extract_packet_data_nil in Hnone. now rewrite Hnone.
Qed.

(** X19: On a capture with an IP packet [main] raises nothing on its way to the
    plots: it logs the seven records of [print_results], at level INFO, and
    after them the warning of the port scan, if there is one. *)
Theorem main_with_ip_packets (rendering : Rendering) (pcap_file : string)
    (packets : list Scapy.Packet) (threshold : Z) :
  filter has_ip packets <> [] ->
  exists a scan,
    analyze_packet_data (extract_packet_data packets) = Ok a
    /\ detect_port_scanning (extract_packet_data_security packets) threshold
       = Ok scan
    /\ main rendering pcap_file (Packets packets) threshold
       = mkRun (List.app (records (print_results rendering a))
                         (map (pair WARNING) (warnings scan)))
               (Returned tt)
    /\ List.length (records (print_results rendering a)) = 7%nat
    /\ Forall (fun rec => fst rec = INFO) (records (print_results rendering a)).
Proof.
  intros Hip.
  destruct (main_analyses packets threshold Hip) as [a [scan [Ha Hscan]]].
  exists a, scan. rewrite main_on_packets, Ha, Hscan.
  destruct (print_results_run rendering a) as [_ [Hlen Hinfo]].
  repeat split; assumption.
Qed.

(** X20: [main] gets as far as the plots exactly when the capture could be read
    and holds an IP packet. *)
Theorem main_returns_iff (rendering : Rendering) (pcap_file : string)
    (rdpcap : rdpcap_result) (threshold : Z) :
  ending (main rendering pcap_file rdpcap threshold) = Returned tt
  <-> exists packets, rdpcap = Packets packets /\ filter has_ip packets <> [].
Proof.
  split.
  - destruct rdpcap as [packets | | e]; try discriminate.
    rewrite main_on_packets. intros Hend.
    exists packets; split; [reflexivity |].
    intros Hnone. apply extract_packet_data_nil in Hnone.
    rewrite Hnone in Hend. discriminate.
  - intros [packets [-> Hip]]. rewrite main_on_packets.
    destruct (main_analyses packets threshold Hip) as [a [scan [Ha Hscan]]].
    now rewrite Ha, Hscan.
Qed.

(** X21: For a positive threshold [main] logs a warning exactly when some source
    of the capture reaches the threshold with its distinct [dst_port]
    values. *)
Theorem main_warns_iff (rendering : Rendering) (pcap_file : string)
    (packets : list Scapy.Packet) (threshold : Z) :
  0 < threshold ->
  (exists message,
     In (WARNING, message)
        (records (main rendering pcap_file (Packets packets) threshold)))
  <-> exists s,
        threshold <= unique_ports (extract_packet_data_security packets) s.
Proof.
  intros Hpos. rewrite main_on_packets.
  destruct (extract_packet_data_security packets) as [| r0 t] eqn:Edf.
  - assert (Hnone : extract_packet_data packets = []).
    { apply extract_packet_data_nil.
      now apply extract_packet_data_security_nil. }
    rewrite Hnone. cbn [analyze_packet_data getitem bind records].
    split; [intros [m []] |].
    intros [s Hs]. cbv [unique_ports ports_of] in Hs. simpl in Hs. lia.
  - assert (Hip : filter has_ip packets <> []).
    { intros E. apply extract_packet_data_security_nil in E. congruence. }
    destruct (main_analyses packets threshold Hip) as [a [scan [Ha Hscan]]].
    rewrite Ha. rewrite Edf in Hscan. rewrite Hscan. cbn [records].
    destruct (print_results_run rendering a) as [_ [_ Hinfo]].
    assert (Hdf : r0 :: t <> []) by discriminate.
    destruct (detect_port_scanning_returns (r0 :: t) threshold Hdf)
      as [scan' [Hscan' [Hflag Hw]]].
    rewrite Hscan in Hscan'. inversion Hscan'; subst scan'. split.
    + intros [m Hin]. apply in_app_or in Hin. destruct Hin as [Hin | Hin].
      * rewrite Forall_forall in Hinfo. apply Hinfo in Hin. discriminate.
      * destruct (ip_addresses scan) as [| s l] eqn:E.
        -- rewrite (proj2 Hw eq_refl) in Hin. contradiction.
        -- exists s. apply (Hflag s). now left.
    + intros [s Hs].
      assert (Hin : In s (ip_addresses scan)) by (apply Hflag; lia).
      destruct (warnings scan) as [| m l] eqn:E.
      * rewrite (proj1 Hw eq_refl) in Hin. contradiction.
      * exists m. apply in_or_app. right. now left.
Qed.

(** * Names and percentages *)

(** X3: [protocol_name] gives different protocol numbers different names, the
    known ones and the [Unknown(n)] ones alike. *)
Theorem protocol_names_distinct (m n : Z) :
  m <> n -> protocol_name m <> protocol_name n.
Proof.
  intros Hne E. apply Hne. exact (protocol_name_inj m n E).
Qed.

(** X11: Every percentage is computed from the counts of its own table, in
    binary64: count / number of rows * 100 in the protocol distribution and
    in the pair table, count / total of the pair * 100 in the per-protocol
    table. *)
Theorem percentages_from_counts (df : DataFrame Row) (r : Analysis) :
  analyze_packet_data df = Ok r ->
  (forall row, In row (protocol_counts_df r) ->
     pc_Percentage row = percent (pc_Count row) (Z.of_nat (List.length df)))
  /\ (forall row, In row (ip_communication_table r) ->
        ic_percentage row = percent (ic_count row) (Z.of_nat (List.length df)))
  /\ (forall row, In row (ip_communication_protocols r) ->
        Percentage row
        = percent (Count row)
            (pair_protocol_total r (Source_IP row) (Destination_IP row))).
Proof.
  intros Hr. split; [| split]; intros row Hrow.
  - rewrite (protocol_counts_df_rows df r Hr) in Hrow.
    apply in_map_iff in Hrow. destruct Hrow as [e [<- _]]. reflexivity.
  - rewrite (ip_communication_table_rows df r Hr) in Hrow.
    apply in_map_iff in Hrow. destruct Hrow as [e [<- _]]. reflexivity.
  - assert (Htotal : forall s d,
               pair_protocol_total r s d
               = Z.of_nat (count (s, d) (map pair_key df))).
    { intros s d. pose proof (analyze_packet_data_Ok df r Hr) as Hdf.
      destruct (analyze_packet_data_returns df Hdf) as [r' [Hr' [_ [_ Hp]]]].
      rewrite Hr in Hr'. inversion Hr'; subst r'.
      unfold pair_protocol_total.
      rewrite Hp, transform_percentage_counts. apply group_sum_size. }
    rewrite Htotal.
    rewrite (ip_communication_protocols_rows df r Hr) in Hrow.
    apply in_map_iff in Hrow. destruct Hrow as [[[[s d] p] c] [<- _]].
    reflexivity.
Qed.

(** * The further properties at sample inputs *)

Lemma protocol_names_distinct_witness :
  protocol_name 47 <> protocol_name 4.
Proof. apply (protocol_names_distinct 47 4). lia. Defined.

Lemma protocol_distribution_groups_witness :
  StronglySorted (fun a b => pc_Count b <= pc_Count a)
                 (protocol_counts_df mixed_protocols_analysis)
  /\ Permutation (map pc_entry (protocol_counts_df mixed_protocols_analysis))
       (map (fun k => (protocol_name k,
                       Z.of_nat (count k (map protocol mixed_protocols))))
            (unique (map protocol mixed_protocols)))
  /\ NoDup (map pc_Protocol (protocol_counts_df mixed_protocols_analysis)).
Proof.
  apply (protocol_distribution_groups mixed_protocols mixed_protocols_analysis).
  vm_compute. reflexivity.
Defined.

Lemma protocol_counts_total_witness :
  Pandas.sum (map pc_Count (protocol_counts_df mixed_protocols_analysis)) = 4.
Proof.
  apply (protocol_counts_total mixed_protocols mixed_protocols_analysis).
  vm_compute. reflexivity.
Defined.

Lemma ip_communication_total_witness :
  Pandas.sum (map ic_count (ip_communication_table mixed_protocols_analysis)) = 4.
Proof.
  apply (ip_communication_total mixed_protocols mixed_protocols_analysis).
  vm_compute. reflexivity.
Defined.

Lemma counts_within_bounds_witness :
  1 <= Count (mkIpProtocolRow "A" "B" "TCP" 2 0x1.0aaaaaaaaaaaap+6%float)
    <= pair_protocol_total mixed_protocols_analysis "A" "B"
  /\ pair_protocol_total mixed_protocols_analysis "A" "B" <= 4.
Proof.
  apply (counts_within_bounds mixed_protocols mixed_protocols_analysis).
  - vm_compute. reflexivity.
  - vm_compute. left. reflexivity.
Defined.

Lemma per_protocol_table_layout_witness :
  StronglySorted (fun a b => leb (icp_pair a) (icp_pair b) = true)
                 (ip_communication_protocols mixed_protocols_analysis)
  /\ NoDup (map icp_label (ip_communication_protocols mixed_protocols_analysis))
  /\ forall s d p,
       In (s, d, protocol_name p)
          (map icp_label (ip_communication_protocols mixed_protocols_analysis))
       <-> In (s, d, p) (map triple_key mixed_protocols).
Proof.
  apply (per_protocol_table_layout mixed_protocols mixed_protocols_analysis).
  vm_compute. reflexivity.
Defined.

Lemma percentages_from_counts_witness :
  Percentage (mkIpProtocolRow "A" "B" "TCP" 2 0x1.0aaaaaaaaaaaap+6%float)
  = percent 2 (pair_protocol_total mixed_protocols_analysis "A" "B").
Proof.
  apply (percentages_from_counts mixed_protocols mixed_protocols_analysis).
  - vm_compute. reflexivity.
  - vm_compute. left. reflexivity.
Defined.

Lemma warning_lists_sources_ascending_witness :
  ip_addresses two_sources_scan1 = [ "X"; "Z" ]
  /\ warnings two_sources_scan1
     = [ "Potential port scanning detected from IP addresses: X, Z" ].
Proof.
  split; [reflexivity |].
  apply (warning_lists_sources_ascending two_sources 1 two_sources_scan1).
  - vm_compute. reflexivity.
  - discriminate.
Defined.

Lemma detect_port_scanning_by_port_set_witness :
  detect_port_scanning two_sources 2
  = detect_port_scanning two_sources_shuffled 2.
Proof.
  apply (detect_port_scanning_by_port_set two_sources two_sources_shuffled 2).
  - discriminate.
  - discriminate.
  - intros k. simpl. intuition.
Defined.

Lemma nonpositive_threshold_flags_all_witness :
  In "Z" (ip_addresses two_sources_scan0).
Proof.
  apply (nonpositive_threshold_flags_all two_sources 0 two_sources_scan0).
  - lia.
  - vm_compute. reflexivity.
  - simpl. auto.
Defined.

Lemma single_port_source_not_flagged_witness :
  ~ flagged two_sources 2 "Z".
Proof.
  apply (single_port_source_not_flagged two_sources 2 "Z" 80).
  - intros r Hr Hs. simpl in Hr.
    destruct Hr as [<- | [<- | [<- | [<- | []]]]];
      simpl in Hs; (discriminate || reflexivity).
  - lia.
Defined.

Lemma capture_without_tcp_not_flagged_witness :
  (forall r, In r (extract_packet_data_security pings) -> dst_port r = 0)
  /\ detect_port_scanning (extract_packet_data_security pings) 2
     = Ok (mkPortScan [] []).
Proof.
  apply (capture_without_tcp_not_flagged pings 2).
  - intros p Hp. simpl in Hp. destruct Hp as [<- | [<- | []]]; reflexivity.
  - simpl. discriminate.
  - lia.
Defined.

Lemma flagged_monotone_witness : flagged two_sources 1 "X".
Proof.
  apply (flagged_monotone two_sources 2 1 "X").
  - lia.
  - eexists; split; [reflexivity |]. simpl. now left.
Defined.

Lemma main_without_ip_packets_witness :
  main sample_rendering "capture.pcapng" (Packets arp_only) 100
  = mkRun [] (Raised (KeyError "size")).
Proof.
  apply (main_without_ip_packets sample_rendering "capture.pcapng" arp_only 100).
  reflexivity.
Defined.

Lemma main_with_ip_packets_witness :
  exists a scan,
    analyze_packet_data (extract_packet_data tcp_and_icmp) = Ok a
    /\ detect_port_scanning (extract_packet_data_security tcp_and_icmp) 2
       = Ok scan
    /\ main sample_rendering "capture.pcapng" (Packets tcp_and_icmp) 2
       = mkRun (List.app (records (print_results sample_rendering a))
                         (map (pair WARNING) (warnings scan)))
               (Returned tt)
    /\ List.length (records (print_results sample_rendering a)) = 7%nat
    /\ Forall (fun rec => fst rec = INFO)
              (records (print_results sample_rendering a)).
Proof.
  apply (main_with_ip_packets sample_rendering "capture.pcapng" tcp_and_icmp 2).
  simpl. discriminate.
Defined.

Lemma main_warns_iff_witness :
  exists message,
    In (WARNING, message)
       (records (main sample_rendering "capture.pcapng" (Packets tcp_and_icmp) 2)).
Proof.
  apply (main_warns_iff sample_rendering "capture.pcapng" tcp_and_icmp 2);
    [lia |].
  exists "10.0.0.1". vm_compute. discriminate.
Defined.

(** The run of [main] on the capture [tcp_and_icmp], at threshold 2, with the
    sample rendering. *)
Example main_run :
  main sample_rendering "capture.pcapng" (Packets tcp_and_icmp) 2
  = mkRun
      [ (INFO, "Total bandwidth used: x.xx Mbps");
        (INFO, newline ++ "Protocol Distribution:" ++ newline);
        (INFO, "2 rows");
        (INFO, newline ++ "Top IP Address Communications:" ++ newline);
        (INFO, "1 rows");
        (INFO, newline ++ "Share of each protocol between IPs:" ++ newline);
        (INFO, "2 rows");
        (WARNING, "Potential port scanning detected from IP addresses: 10.0.0.1") ]
      (Returned tt).
Proof. vm_compute. reflexivity. Qed.

(** A missing capture file: one error record, exit status 1, nothing else. *)
Example main_file_not_found :
  main sample_rendering "capture.pcapng" FileNotFoundError 100
  = mkRun [ (ERROR, "PCAP file not found: capture.pcapng") ] (Exited 1).
Proof. reflexivity. Qed.
